(** * The model registry: backend contract and gRPC transport layer

    A shallow embedding of [backend/types.go] and
    [grpcservers/modelRegistryServer.go] of cogment-model-registry, and the
    properties of the streaming upload, the chunked download, the pagination
    cursors and the error mapping that follow from the code.

    Conventions.  Go's [int] and [uint] are the 64-bit ones; every integer is
    a [Z] and each conversion the code performs is written as the wrap-around
    it is.  A Go [(T, error)] result is a sum, a returned [error] an
    [option error] ([None] is [nil]).  Handlers run in a small state monad over
    the [World] they can observe or change: the backend, the streams of the
    call and the clock.  A run either returns or panics (a slice bound, a nil
    message).  [log.Printf] calls are left out. *)

From Stdlib Require Import ZArith List String Ascii Lia DecimalString.
From Stdlib Require Import Strings.Byte.
From Stdlib Require DecimalPos DecimalN.
From stdpp Require Import base option list gmap strings.

Open Scope string_scope.
Open Scope list_scope.
Open Scope Z_scope.

(** ** Machine integers *)

Module GoInt.

(** [uint32(x)], [uint64(x)] and [uint(x)]: the value modulo the width. *)
Definition uint32 (x : Z) : Z := x mod 2 ^ 32.
Definition uint64 (x : Z) : Z := x mod 2 ^ 64.
Definition uint (x : Z) : Z := uint64 x.

(** [int64(x)] and [int(x)]: two's complement on 64 bits. *)
Definition int64 (x : Z) : Z := (x + 2 ^ 63) mod 2 ^ 64 - 2 ^ 63.
Definition int (x : Z) : Z := int64 x.

Definition MaxInt : Z := 2 ^ 63 - 1.

(** [len(s)] as an [int]. *)
Definition len {A} (s : list A) : Z := Z.of_nat (length s).

End GoInt.

(** ** [strconv] and the [fmt] verbs the messages use *)

Module strconv.

Definition dquote : string := String (ascii_of_nat 34) EmptyString.
Definition backslash : string := String (ascii_of_nat 92) EmptyString.

Definition lowerhex : string := "0123456789abcdef".

Definition hexdigit (n : nat) : string :=
  match String.get n lowerhex with
  | Some c => String c EmptyString
  | None => EmptyString
  end.

(** How [%q] writes one byte of a string: a double quote and a backslash
    behind a backslash, the control characters as the escapes [\a \b \f \n
    \r \t \v] or as [\x] and two hexadecimal digits, any other byte as it
    is.  (Go decodes the bytes from 128 on as UTF-8 and also escapes the
    invalid ones and the runes that are not printable; they are kept as
    they are here.) *)
Definition escapeChar (c : ascii) : string :=
  let n := nat_of_ascii c in
  if (Nat.eqb n 34 || Nat.eqb n 92)%bool then backslash +:+ String c EmptyString
  else if Nat.eqb n 7 then backslash +:+ "a"
  else if Nat.eqb n 8 then backslash +:+ "b"
  else if Nat.eqb n 12 then backslash +:+ "f"
  else if Nat.eqb n 10 then backslash +:+ "n"
  else if Nat.eqb n 13 then backslash +:+ "r"
  else if Nat.eqb n 9 then backslash +:+ "t"
  else if Nat.eqb n 11 then backslash +:+ "v"
  else if (Nat.ltb n 32 || Nat.eqb n 127)%bool then
    backslash +:+ "x" +:+ hexdigit (Nat.div n 16) +:+ hexdigit (Nat.modulo n 16)
  else String c EmptyString.

(** [%q] on a string: the text between double quotes, each byte written by
    [escapeChar]. *)
Fixpoint escape (s : string) : string :=
  match s with
  | EmptyString => EmptyString
  | String c s' => escapeChar c +:+ escape s'
  end.

Definition Quote (s : string) : string := dquote +:+ escape s +:+ dquote.

(** [FormatInt(i, 10)], which is also [%d]. *)
Definition FormatInt (i : Z) : string := NilZero.string_of_int (Z.to_int i).

(** [FormatUint(u, 10)]. *)
Definition FormatUint (u : Z) : string := NilZero.string_of_uint (N.to_uint (Z.to_N u)).

Definition digit (c : ascii) : option Z :=
  let n := Z.of_nat (nat_of_ascii c) in
  if ((48 <=? n) && (n <=? 57))%bool then Some (n - 48) else None.

Fixpoint digits (acc : Z) (s : string) : option Z :=
  match s with
  | EmptyString => Some acc
  | String c s' =>
      match digit c with
      | Some d => digits (10 * acc + d) s'
      | None => None
      end
  end.

(** [ParseUint(s, 10, 0)]: a non-empty run of decimal digits whose value
    fits 64 bits; [None] is a syntax or a range error. *)
Definition ParseUint (s : string) : option Z :=
  match s with
  | EmptyString => None
  | _ =>
      match digits 0 s with
      | Some n => if n <? 2 ^ 64 then Some n else None
      | None => None
      end
  end.

(** [ParseInt(s, 10, 0)]: an optional sign, then as [ParseUint], within the
    range of [int64]. *)
Definition ParseInt (s : string) : option Z :=
  match s with
  | EmptyString => None
  | String c s' =>
      let n := nat_of_ascii c in
      if Nat.eqb n 43 then
        match ParseUint s' with
        | Some u => if u <? 2 ^ 63 then Some u else None
        | None => None
        end
      else if Nat.eqb n 45 then
        match ParseUint s' with
        | Some u => if u <=? 2 ^ 63 then Some (- u) else None
        | None => None
        end
      else
        match ParseUint s with
        | Some u => if u <? 2 ^ 63 then Some u else None
        | None => None
        end
  end.

End strconv.

(** ** gRPC status codes, and Go errors *)

Module codes.

Inductive Code := InvalidArgument | NotFound | Internal.

Definition String (c : Code) : string :=
  match c with
  | InvalidArgument => "InvalidArgument"
  | NotFound => "NotFound"
  | Internal => "Internal"
  end.

End codes.

(** The values of the [error] interface the program meets: [io.EOF], the two
  error types of the backend package, a gRPC status made by
  [status.Errorf], and any other error, of which only the text is known. *)
Inductive error :=
| EOF
| UnknownModelError (ModelID : string)
| UnknownModelVersionError (ModelID : string) (VersionNumber : Z)
| statusError (c : codes.Code) (msg : string)
| otherError (text : string).

(** ** [backend/types.go] *)

Module backend.

Module ModelInfo.
Record t := Build {
    ModelID : string;
    LatestVersionNumber : Z;
    UserData : gmap string string
  }.
End ModelInfo.

(** [time.Time] is the number of nanoseconds since the epoch. *)
Module VersionInfo.
Record t := Build {
    ModelID : string;
    VersionNumber : Z;
    CreationTimestamp : Z;
    Archived : bool;
    DataHash : string;
    DataSize : Z;
    UserData : gmap string string
  }.
End VersionInfo.

Module VersionArgs.
Record t := Build {
    VersionNumber : Z;
    CreationTimestamp : Z;
    Archived : bool;
    DataHash : string;
    Data : list byte;
    UserData : gmap string string
  }.
End VersionArgs.

(** [func (e *UnknownModelError) Error() string] and
    [func (e *UnknownModelVersionError) Error() string]; the other cases are
    the texts of [io.EOF] and of a gRPC status. *)
Definition Error (e : error) : string :=
  match e with
  | EOF => "EOF"
  | UnknownModelError ModelID =>
      "no model " +:+ strconv.Quote ModelID +:+ " found"
  | UnknownModelVersionError ModelID VersionNumber =>
      if VersionNumber <=? 0 then
        "model " +:+ strconv.Quote ModelID +:+ " doesn't have any version yet"
      else
        "no version " +:+ strconv.dquote +:+ strconv.FormatInt VersionNumber
          +:+ strconv.dquote +:+ " for model " +:+ strconv.Quote ModelID
          +:+ " found"
  | statusError c msg =>
      "rpc error: code = " +:+ codes.String c +:+ " desc = " +:+ msg
  | otherError text => text
  end.

(** [type Backend interface]: the operations of a store over its state [St];
    each takes the state and gives it back.  The signatures are those the
    transport layer is written against: it ranges over the result of
    [ListModels] reading [ModelID] and [UserData] from each element (the
    interface of [types.go] declares [[]string]), passes a [uint] as the
    initial version number of [ListModelVersionInfos], and adds one to
    [VersionInfo.VersionNumber] in a [uint] variable (both declared [int]).
    Numbers are integers here, and each handler writes out the conversion
    it makes. *)
Module Backend.
Record t (St : Type) := Build {
  Destroy : St -> St;
  CreateOrUpdateModel : ModelInfo.t -> St -> (ModelInfo.t + error) * St;
  RetrieveModelInfo : string -> St -> (ModelInfo.t + error) * St;
  HasModel : string -> St -> (bool + error) * St;
  DeleteModel : string -> St -> option error * St;
  ListModels : Z -> Z -> St -> (list ModelInfo.t + error) * St;
  CreateOrUpdateModelVersion :
    string -> VersionArgs.t -> St -> (VersionInfo.t + error) * St;
  RetrieveModelVersionInfo : string -> Z -> St -> (VersionInfo.t + error) * St;
  RetrieveModelVersionData : string -> Z -> St -> (list byte + error) * St;
  DeleteModelVersion : string -> Z -> St -> option error * St;
  ListModelVersionInfos :
    string -> Z -> Z -> St -> (list VersionInfo.t + error) * St
}.
Arguments Destroy {St}.
Arguments CreateOrUpdateModel {St}.
Arguments RetrieveModelInfo {St}.
Arguments HasModel {St}.
Arguments DeleteModel {St}.
Arguments ListModels {St}.
Arguments CreateOrUpdateModelVersion {St}.
Arguments RetrieveModelVersionInfo {St}.
Arguments RetrieveModelVersionData {St}.
Arguments DeleteModelVersion {St}.
Arguments ListModelVersionInfos {St}.
End Backend.

End backend.

(** ** Go slices

    A slice of a request is its [elems] (the first [len] elements) and the
    [rest] of its backing array up to [cap]: [s[:high]] may reach into it. *)

Module slice.

Record t (A : Type) := Build { elems : list A; rest : list A }.
Arguments Build {A}.
Arguments elems {A}.
Arguments rest {A}.

Definition len {A} (s : t A) : Z := GoInt.len (elems s).
Definition cap {A} (s : t A) : Z := GoInt.len (elems s) + GoInt.len (rest s).

(** [s[low:]]; [None] is the run-time panic, slice bounds out of range. *)
Definition from {A} (s : t A) (low : Z) : option (t A) :=
  if ((0 <=? low) && (low <=? len s))%bool
  then Some (Build (drop (Z.to_nat low) (elems s)) (rest s))
  else None.

(** [s[:high]], in bounds up to [cap(s)]. *)
Definition upto {A} (s : t A) (high : Z) : option (t A) :=
  if ((0 <=? high) && (high <=? cap s))%bool
  then Some (Build (take (Z.to_nat high) (elems s ++ rest s))
                   (drop (Z.to_nat high) (elems s ++ rest s)))
  else None.

(** [data[low:high]] on the bytes of a payload, for [high <= len(data)]. *)
Definition bytes (data : list byte) (low high : Z) : option (list byte) :=
  if ((0 <=? low) && (low <=? high) && (high <=? GoInt.len data))%bool
  then Some (take (Z.to_nat (high - low)) (drop (Z.to_nat low) data))
  else None.

End slice.

(** ** The messages of the wire protocol ([grpcapi]) *)

Module grpcapi.

Module ModelInfo.
Record t := Build { ModelId : string; UserData : gmap string string }.
End ModelInfo.

Module ModelVersionInfo.
Record t := Build {
  ModelId : string;
  VersionNumber : Z;
  CreationTimestamp : Z;
  Archived : bool;
  DataHash : string;
  DataSize : Z;
  UserData : gmap string string
}.
End ModelVersionInfo.

Module CreateOrUpdateModelRequest.
Record t := Build { ModelInfo : option ModelInfo.t }.
End CreateOrUpdateModelRequest.

Module DeleteModelRequest.
Record t := Build { ModelId : string }.
End DeleteModelRequest.

Module RetrieveModelsRequest.
Record t := Build {
  ModelIds : slice.t string;
  ModelsCount : Z;
  ModelHandle : string
}.
End RetrieveModelsRequest.

Module RetrieveModelsReply.
Record t := Build {
  ModelInfos : list ModelInfo.t;
  NextModelHandle : string
}.
End RetrieveModelsReply.

(** [CreateVersionRequestChunk]: a header, a body, or neither. *)
Module CreateVersionRequestChunk.
Inductive t :=
| Header (VersionInfo : option ModelVersionInfo.t)
| Body (DataChunk : list byte)
| Unset.

Definition GetHeader (c : t) : option (option ModelVersionInfo.t) :=
  match c with Header vi => Some vi | _ => None end.

Definition GetBody (c : t) : option (list byte) :=
  match c with Body d => Some d | _ => None end.
End CreateVersionRequestChunk.

Module CreateVersionReply.
Record t := Build { VersionInfo : ModelVersionInfo.t }.
End CreateVersionReply.

Module RetrieveVersionInfosRequest.
Record t := Build {
  ModelId : string;
  VersionNumbers : slice.t Z;
  VersionsCount : Z;
  VersionHandle : string
}.
End RetrieveVersionInfosRequest.

Module RetrieveVersionInfosReply.
Record t := Build {
  VersionInfos : list ModelVersionInfo.t;
  NextVersionHandle : string
}.
End RetrieveVersionInfosReply.

Module RetrieveVersionDataRequest.
Record t := Build { ModelId : string; VersionNumber : Z }.
End RetrieveVersionDataRequest.

Module RetrieveVersionDataReplyChunk.
Record t := Build { DataChunk : list byte }.
End RetrieveVersionDataReplyChunk.

End grpcapi.


(** ** [grpcservers/modelRegistryServer.go] *)

Module grpcservers.

Import backend grpcapi.

Definition timeFromNsTimestamp (timestamp : Z) : Z := GoInt.int64 timestamp.

Definition nsTimestampFromTime (timestamp : Z) : Z := GoInt.uint64 timestamp.

Definition createPbModelVersionInfo (modelVersionInfo : VersionInfo.t)
  : ModelVersionInfo.t :=
  {| ModelVersionInfo.ModelId := VersionInfo.ModelID modelVersionInfo;
     ModelVersionInfo.VersionNumber :=
       GoInt.uint32 (VersionInfo.VersionNumber modelVersionInfo);
     ModelVersionInfo.CreationTimestamp :=
       nsTimestampFromTime (VersionInfo.CreationTimestamp modelVersionInfo);
     ModelVersionInfo.Archived := VersionInfo.Archived modelVersionInfo;
     ModelVersionInfo.DataHash := VersionInfo.DataHash modelVersionInfo;
     ModelVersionInfo.DataSize :=
       GoInt.uint64 (VersionInfo.DataSize modelVersionInfo);
     ModelVersionInfo.UserData := VersionInfo.UserData modelVersionInfo |}.

(** A version record whose numbers fit the fields of the wire record: the
    version number 32 bits, the data size 64 bits, the time stamp the range
    of [UnixNano]. *)
Definition fitsWire (modelVersionInfo : VersionInfo.t) : Prop :=
  0 <= VersionInfo.VersionNumber modelVersionInfo < 2 ^ 32
  /\ 0 <= VersionInfo.DataSize modelVersionInfo < 2 ^ 64
  /\ - 2 ^ 63 <= VersionInfo.CreationTimestamp modelVersionInfo < 2 ^ 63.

(** [status.Errorf(code, format, args...)], the message already formatted. *)
Definition Errorf (c : codes.Code) (msg : string) : error := statusError c msg.

Definition is_EOF (err : error) : bool :=
  match err with EOF => true | _ => false end.

(** The operations of the backend a handler invoked, in order: a record kept
    beside the state to tell an operation that was not called from one that
    changed nothing. *)
Inductive BackendCall :=
| CallCreateOrUpdateModel (modelInfo : backend.ModelInfo.t)
| CallRetrieveModelInfo (modelID : string)
| CallDeleteModel (modelID : string)
| CallListModels (offset limit : Z)
| CallCreateOrUpdateModelVersion (modelID : string) (versionArgs : VersionArgs.t)
| CallRetrieveModelVersionInfo (modelID : string) (versionNumber : Z)
| CallRetrieveModelVersionData (modelID : string) (versionNumber : Z)
| CallListModelVersionInfos (modelID : string) (initialVersionNumber limit : Z).

(** What a call can observe or change: the state of the backend, the messages
    the client stream still holds ([io.EOF] follows the last one), the chunks
    handed to [outStream.Send] and the reply handed to [SendAndClose]. *)
Record World (St : Type) := mkWorld {
  backendState : St;
  backendCalls : list BackendCall;
  inStream : list (CreateVersionRequestChunk.t + error);
  outStream : list RetrieveVersionDataReplyChunk.t;
  closed : option CreateVersionReply.t
}.
Arguments mkWorld {St}.
Arguments backendState {St}.
Arguments backendCalls {St}.
Arguments inStream {St}.
Arguments outStream {St}.
Arguments closed {St}.

(** Two worlds that differ at most in the chunks sent. *)
Definition sameBut_outStream {St} (w w' : World St) : Prop :=
  backendState w' = backendState w /\ backendCalls w' = backendCalls w
  /\ inStream w' = inStream w /\ closed w' = closed w.

(** What the transport decides for one call: the error that ends the
    context, the error of the [k]-th [Send] and of [SendAndClose] if any, and
    the reading of [time.Now()]. *)
Record Context := mkContext {
  ctxErr : error;
  sendError : nat -> option error;
  closeError : option error;
  Now : Z
}.

Record ModelRegistryServer (St : Type) := mkServer {
  backendPromise : option (Backend.t St);
  sentModelVersionDataChunkSize : Z
}.
Arguments mkServer {St}.
Arguments backendPromise {St}.
Arguments sentModelVersionDataChunkSize {St}.

(** A run of a handler returns a value or panics. *)
Inductive Outcome (St A : Type) :=
| Returned (a : A) (w : World St)
| Panicked (w : World St).
Arguments Returned {St A}.
Arguments Panicked {St A}.

Definition M (St A : Type) : Type := World St -> Outcome St A.

Definition ret {St A} (a : A) : M St A := fun w => Returned a w.

Definition bind {St A B} (c : M St A) (k : A -> M St B) : M St B :=
  fun w => match c w with
           | Returned a w' => k a w'
           | Panicked w' => Panicked w'
           end.

Definition panic {St A} : M St A := fun w => Panicked w.

Notation "x <- c ;; k" := (bind c (fun x => k))
  (at level 100, c at next level, right associativity).

Section Handlers.

Context {St : Type}.

(** [backend.ComputeSHA256Hash], of a file of the backend package other than
    [types.go]: the hex-encoded content hash of a buffer. *)
Variable ComputeSHA256Hash : list byte -> string.

(** Modelled from the spec: [BackendPromise.Await] (the readiness gate,
    section 4.2), whose file is not among the sources.  It returns the
    backend once one was assigned; with none assigned the wait ends with the
    error of the caller's context. *)
Definition Await (s : ModelRegistryServer St) (ctx : Context)
  : M St (Backend.t St + error) :=
  ret (match backendPromise s with
       | Some b => inl b
       | None => inr (ctxErr ctx)
       end).

Definition invoke {A} (op : St -> A * St) (call : BackendCall) : M St A :=
  fun w =>
    let '(r, st) := op (backendState w) in
    Returned r (mkWorld st (backendCalls w ++ [call]) (inStream w)
                        (outStream w) (closed w)).

(** [inStream.Recv()]. *)
Definition Recv : M St (CreateVersionRequestChunk.t + error) :=
  fun w =>
    match inStream w with
    | [] => Returned (inr EOF) w
    | r :: rest =>
        Returned r (mkWorld (backendState w) (backendCalls w) rest
                            (outStream w) (closed w))
    end.

(** [outStream.Send(chunk)]. *)
Definition Send (ctx : Context) (chunk : RetrieveVersionDataReplyChunk.t)
  : M St (option error) :=
  fun w =>
    Returned (sendError ctx (length (outStream w)))
             (mkWorld (backendState w) (backendCalls w) (inStream w)
                      (outStream w ++ [chunk]) (closed w)).

(** [inStream.SendAndClose(reply)]. *)
Definition SendAndClose (ctx : Context) (reply : CreateVersionReply.t)
  : M St (option error) :=
  fun w =>
    Returned (closeError ctx)
             (mkWorld (backendState w) (backendCalls w) (inStream w)
                      (outStream w) (Some reply)).

(** *** Model operations *)

(** [CreateOrUpdateModel].  The request's [ModelInfo] is read for the log
    line first: a request without one panics there. *)
Definition CreateOrUpdateModel (s : ModelRegistryServer St) (ctx : Context)
    (req : CreateOrUpdateModelRequest.t)
  : M St (unit + error) :=
  match CreateOrUpdateModelRequest.ModelInfo req with
  | None => panic
  | Some reqModelInfo =>
      let modelInfo :=
        {| backend.ModelInfo.ModelID := ModelInfo.ModelId reqModelInfo;
           backend.ModelInfo.LatestVersionNumber := 0;
           backend.ModelInfo.UserData := ModelInfo.UserData reqModelInfo |} in
      b <- Await s ctx ;;
      match b with
      | inr err => ret (inr err)
      | inl b =>
          r <- invoke (Backend.CreateOrUpdateModel b modelInfo)
                      (CallCreateOrUpdateModel modelInfo) ;;
          match r with
          | inr err =>
              ret (inr (Errorf codes.Internal
                ("unexpected error while creating model "
                 +:+ strconv.Quote (backend.ModelInfo.ModelID modelInfo)
                 +:+ ": " +:+ Error err)))
          | inl _ => ret (inl tt)
          end
      end
  end.

Definition DeleteModel (s : ModelRegistryServer St) (ctx : Context)
    (req : DeleteModelRequest.t)
  : M St (unit + error) :=
  b <- Await s ctx ;;
  match b with
  | inr err => ret (inr err)
  | inl b =>
      err <- invoke (Backend.DeleteModel b (DeleteModelRequest.ModelId req))
                    (CallDeleteModel (DeleteModelRequest.ModelId req)) ;;
      match err with
      | Some (UnknownModelError _ as err) =>
          ret (inr (Errorf codes.NotFound (Error err)))
      | Some err =>
          ret (inr (Errorf codes.Internal
            ("unexpected error while deleting model "
             +:+ strconv.Quote (DeleteModelRequest.ModelId req)
             +:+ ": " +:+ Error err)))
      | None => ret (inl tt)
      end
  end.

Definition pbModelInfoOf (modelInfo : backend.ModelInfo.t) : ModelInfo.t :=
  {| ModelInfo.ModelId := backend.ModelInfo.ModelID modelInfo;
     ModelInfo.UserData := backend.ModelInfo.UserData modelInfo |}.

(** The loop of [RetrieveModels] over the requested identifiers. *)
Fixpoint retrieveModelInfos (b : Backend.t St) (modelIDsSlice : list string)
    (pbModelInfos : list ModelInfo.t)
  : M St (list ModelInfo.t + error) :=
  match modelIDsSlice with
  | [] => ret (inl pbModelInfos)
  | modelID :: modelIDs =>
      r <- invoke (Backend.RetrieveModelInfo b modelID)
                  (CallRetrieveModelInfo modelID) ;;
      match r with
      | inr (UnknownModelError _ as err) =>
          ret (inr (Errorf codes.NotFound (Error err)))
      | inr err =>
          ret (inr (Errorf codes.Internal
            ("unexpected error while retrieving models: " +:+ Error err)))
      | inl modelInfo =>
          retrieveModelInfos b modelIDs
            (pbModelInfos ++ [pbModelInfoOf modelInfo])
      end
  end.

Definition modelsReply (offset : Z) (pbModelInfos : list ModelInfo.t)
  : RetrieveModelsReply.t :=
  let nextOffset := GoInt.int (offset + GoInt.len pbModelInfos) in
  {| RetrieveModelsReply.ModelInfos := pbModelInfos;
     RetrieveModelsReply.NextModelHandle :=
       strconv.FormatInt (GoInt.int64 nextOffset) |}.

Definition RetrieveModels (s : ModelRegistryServer St) (ctx : Context)
    (req : RetrieveModelsRequest.t)
  : M St (RetrieveModelsReply.t + error) :=
  let ModelHandle := RetrieveModelsRequest.ModelHandle req in
  let ModelsCount := RetrieveModelsRequest.ModelsCount req in
  let ModelIds := RetrieveModelsRequest.ModelIds req in
  let parsed :=
    if String.eqb ModelHandle EmptyString then Some 0
    else option_map GoInt.int (strconv.ParseInt ModelHandle) in
  match parsed with
  | None =>
      ret (inr (Errorf codes.InvalidArgument
        ("Invalid value for `model_handle` (" +:+ strconv.Quote ModelHandle
         +:+ ") only empty or values provided by a previous call should be used")))
  | Some offset =>
      b <- Await s ctx ;;
      match b with
      | inr err => ret (inr err)
      | inl b =>
          if slice.len ModelIds =? 0 then
            r <- invoke (Backend.ListModels b offset (GoInt.int ModelsCount))
                        (CallListModels offset (GoInt.int ModelsCount)) ;;
            match r with
            | inr err =>
                ret (inr (Errorf codes.Internal
                  ("unexpected error while retrieving models: " +:+ Error err)))
            | inl modelInfos =>
                ret (inl (modelsReply offset (map pbModelInfoOf modelInfos)))
            end
          else
            match slice.from ModelIds offset with
            | None => panic
            | Some modelIDsSlice =>
                match (if 0 <? ModelsCount
                       then slice.upto modelIDsSlice ModelsCount
                       else Some modelIDsSlice) with
                | None => panic
                | Some modelIDsSlice =>
                    r <- retrieveModelInfos b (slice.elems modelIDsSlice) [] ;;
                    match r with
                    | inr err => ret (inr err)
                    | inl pbModelInfos =>
                        ret (inl (modelsReply offset pbModelInfos))
                    end
                end
            end
      end
  end.

(** The offset a [ModelHandle] decodes to in [RetrieveModels]: zero for the
    empty handle, else the [int] that [ParseInt] reads; [None] is the parse
    error. *)
Definition offsetOf (ModelHandle : string) : option Z :=
  if String.eqb ModelHandle EmptyString then Some 0
  else option_map GoInt.int (strconv.ParseInt ModelHandle).

(** *** Chunked upload *)

(** How one turn of the receiving loop of [CreateVersion] ends. *)
Inductive LoopStep :=
| Continue (modelData : list byte)
| Break (modelData : list byte)
| Return (err : error)
| NilDereference.

(** The body of the loop, on what [Recv] gave.  The three tests made at
    [io.EOF] are written as they stand in the source, each on [err == io.EOF]
    again; [receivedVersionInfo] is the pointer the header held, read there
    for the first time. *)
Definition receiveStep (receivedVersionInfo : option ModelVersionInfo.t)
    (modelData : list byte) (r : CreateVersionRequestChunk.t + error)
  : LoopStep :=
  match r with
  | inr err =>
      if is_EOF err then
        match receivedVersionInfo with
        | None => NilDereference
        | Some vi =>
            let DataSize := ModelVersionInfo.DataSize vi in
            let receivedDataSize := GoInt.uint64 (GoInt.len modelData) in
            if ((receivedDataSize =? DataSize) && is_EOF err)%bool then
              Break modelData
            else if is_EOF err then
              Return (Errorf codes.InvalidArgument
                ("stream ended while having not received the expected data, expected "
                 +:+ strconv.FormatUint DataSize +:+ " bytes, received "
                 +:+ strconv.FormatUint receivedDataSize +:+ " bytes"))
            else if DataSize <? receivedDataSize then
              Return (Errorf codes.InvalidArgument
                ("received more data than expected, expected "
                 +:+ strconv.FormatUint DataSize +:+ " bytes, received "
                 +:+ strconv.FormatUint receivedDataSize +:+ " bytes"))
            else Return err
        end
      else Return err
  | inl chunk =>
      match CreateVersionRequestChunk.GetBody chunk with
      | None =>
          Return (Errorf codes.InvalidArgument
            "subsequent request chunk do not include a Body")
      | Some DataChunk => Continue (modelData ++ DataChunk)
      end
  end.

(** The loop, on the messages the stream holds: it gives how the loop ends
    and the messages left unread. *)
Fixpoint receiveLoop (receivedVersionInfo : option ModelVersionInfo.t)
    (modelData : list byte) (stream : list (CreateVersionRequestChunk.t + error))
  : LoopStep * list (CreateVersionRequestChunk.t + error) :=
  match stream with
  | [] => (receiveStep receivedVersionInfo modelData (inr EOF), [])
  | r :: rest =>
      match receiveStep receivedVersionInfo modelData r with
      | Continue modelData' => receiveLoop receivedVersionInfo modelData' rest
      | exit => (exit, rest)
      end
  end.

Definition receiveData (receivedVersionInfo : option ModelVersionInfo.t)
  : M St LoopStep :=
  fun w =>
    let '(exit, rest) := receiveLoop receivedVersionInfo [] (inStream w) in
    Returned exit (mkWorld (backendState w) (backendCalls w) rest
                           (outStream w) (closed w)).

(** The part of [CreateVersion] after the loop. *)
Definition commitVersion (s : ModelRegistryServer St) (ctx : Context)
    (receivedVersionInfo : ModelVersionInfo.t) (modelData : list byte)
  : M St (option error) :=
  let receivedHash := ComputeSHA256Hash modelData in
  let DataHash := ModelVersionInfo.DataHash receivedVersionInfo in
  if (negb (String.eqb DataHash EmptyString)
      && negb (String.eqb DataHash receivedHash))%bool then
    ret (Some (Errorf codes.InvalidArgument
      ("received data did not match the expected hash, expected "
       +:+ strconv.Quote DataHash +:+ ", received "
       +:+ strconv.Quote receivedHash)))
  else
    b <- Await s ctx ;;
    match b with
    | inr err => ret (Some err)
    | inl b =>
        let creationTimestamp :=
          if 0 <? ModelVersionInfo.CreationTimestamp receivedVersionInfo
          then timeFromNsTimestamp
                 (ModelVersionInfo.CreationTimestamp receivedVersionInfo)
          else Now ctx in
        let versionArgs :=
          {| VersionArgs.VersionNumber := 0;
             VersionArgs.CreationTimestamp := creationTimestamp;
             VersionArgs.Archived := ModelVersionInfo.Archived receivedVersionInfo;
             VersionArgs.DataHash := receivedHash;
             VersionArgs.Data := modelData;
             VersionArgs.UserData := ModelVersionInfo.UserData receivedVersionInfo |} in
        let ModelId := ModelVersionInfo.ModelId receivedVersionInfo in
        r <- invoke (Backend.CreateOrUpdateModelVersion b ModelId versionArgs)
                    (CallCreateOrUpdateModelVersion ModelId versionArgs) ;;
        match r with
        | inr err =>
            ret (Some (Errorf codes.Internal
              ("unexpected error while creating a version for model "
               +:+ strconv.Quote ModelId +:+ ": " +:+ Error err)))
        | inl versionInfo =>
            SendAndClose ctx
              {| CreateVersionReply.VersionInfo :=
                   createPbModelVersionInfo versionInfo |}
        end
    end.

(** [CreateVersion].  The composite literal of [VersionArgs] names no
    [VersionNumber]: the field holds the zero value. *)
Definition CreateVersion (s : ModelRegistryServer St) (ctx : Context)
  : M St (option error) :=
  r <- Recv ;;
  match r with
  | inr err =>
      if is_EOF err
      then ret (Some (Errorf codes.InvalidArgument "empty request"))
      else ret (Some err)
  | inl firstChunk =>
      match CreateVersionRequestChunk.GetHeader firstChunk with
      | None =>
          ret (Some (Errorf codes.InvalidArgument
            "first request chunk do not include a Header"))
      | Some receivedVersionInfo =>
          exit <- receiveData receivedVersionInfo ;;
          match exit with
          | Return err => ret (Some err)
          | NilDereference => panic
          | Break modelData | Continue modelData =>
              match receivedVersionInfo with
              | None => panic
              | Some receivedVersionInfo =>
                  commitVersion s ctx receivedVersionInfo modelData
              end
          end
      end
  end.

(** *** Version listing *)

(** The loop of the sequential scan: the wire records of the versions the
    backend listed, and the number after the last of them. *)
Fixpoint scanVersionInfos (versionInfos : list VersionInfo.t)
    (pbVersionInfos : list ModelVersionInfo.t) (nextVersionNumber : Z)
  : list ModelVersionInfo.t * Z :=
  match versionInfos with
  | [] => (pbVersionInfos, nextVersionNumber)
  | versionInfo :: versionInfos' =>
      scanVersionInfos versionInfos'
        (pbVersionInfos ++ [createPbModelVersionInfo versionInfo])
        (GoInt.uint (VersionInfo.VersionNumber versionInfo + 1))
  end.

(** The number after the last of the versions listed, or the cursor the call
    started from when none was. *)
Definition nextAfter (versionInfos : list VersionInfo.t) (start : Z) : Z :=
  match last versionInfos with
  | Some versionInfo => GoInt.uint (VersionInfo.VersionNumber versionInfo + 1)
  | None => start
  end.

(** The loop over the requested version numbers. *)
Fixpoint retrieveVersionInfos (b : Backend.t St) (ModelId : string)
    (versionNumberSlice : list Z)
    (pbVersionInfos : list ModelVersionInfo.t) (nextVersionNumber : Z)
  : M St (list ModelVersionInfo.t * Z + error) :=
  match versionNumberSlice with
  | [] => ret (inl (pbVersionInfos, nextVersionNumber))
  | versionNumber :: versionNumbers =>
      r <- invoke (Backend.RetrieveModelVersionInfo b ModelId
                     (GoInt.int versionNumber))
                  (CallRetrieveModelVersionInfo ModelId
                     (GoInt.int versionNumber)) ;;
      match r with
      | inr (UnknownModelError _ as err)
      | inr (UnknownModelVersionError _ _ as err) =>
          ret (inr (Errorf codes.NotFound (Error err)))
      | inr err =>
          ret (inr (Errorf codes.Internal
            ("unexpected error while retrieving version " +:+ strconv.dquote
             +:+ strconv.FormatUint versionNumber +:+ strconv.dquote
             +:+ " for model " +:+ strconv.Quote ModelId
             +:+ ": " +:+ Error err)))
      | inl versionInfo =>
          retrieveVersionInfos b ModelId versionNumbers
            (pbVersionInfos ++ [createPbModelVersionInfo versionInfo])
            (GoInt.uint (VersionInfo.VersionNumber versionInfo + 1))
      end
  end.

Definition versionInfosReply (r : list ModelVersionInfo.t * Z)
  : RetrieveVersionInfosReply.t :=
  {| RetrieveVersionInfosReply.VersionInfos := fst r;
     RetrieveVersionInfosReply.NextVersionHandle :=
       strconv.FormatUint (GoInt.uint64 (snd r)) |}.

(** The cursor a [VersionHandle] decodes to; [None] is the parse error. *)
Definition initialVersionNumberOf (VersionHandle : string) : option Z :=
  if String.eqb VersionHandle EmptyString then Some 0
  else option_map GoInt.uint (strconv.ParseUint VersionHandle).

Definition RetrieveVersionInfos (s : ModelRegistryServer St) (ctx : Context)
    (req : RetrieveVersionInfosRequest.t)
  : M St (RetrieveVersionInfosReply.t + error) :=
  let ModelId := RetrieveVersionInfosRequest.ModelId req in
  let VersionNumbers := RetrieveVersionInfosRequest.VersionNumbers req in
  let VersionsCount := RetrieveVersionInfosRequest.VersionsCount req in
  let VersionHandle := RetrieveVersionInfosRequest.VersionHandle req in
  match initialVersionNumberOf VersionHandle with
  | None =>
      ret (inr (Errorf codes.InvalidArgument
        ("Invalid value for `version_handle` (" +:+ strconv.Quote VersionHandle
         +:+ ") only empty or values provided by a previous call should be used")))
  | Some initialVersionNumber =>
      b <- Await s ctx ;;
      match b with
      | inr err => ret (inr err)
      | inl b =>
          if slice.len VersionNumbers =? 0 then
            r <- invoke (Backend.ListModelVersionInfos b ModelId
                           initialVersionNumber (GoInt.int VersionsCount))
                        (CallListModelVersionInfos ModelId
                           initialVersionNumber (GoInt.int VersionsCount)) ;;
            match r with
            | inr (UnknownModelError _ as err) =>
                ret (inr (Errorf codes.NotFound (Error err)))
            | inr err =>
                ret (inr (Errorf codes.Internal
                  ("unexpected error while deleting model "
                   +:+ strconv.Quote ModelId +:+ ": " +:+ Error err)))
            | inl versionInfos =>
                ret (inl (versionInfosReply
                  (scanVersionInfos versionInfos [] initialVersionNumber)))
            end
          else
            match slice.from VersionNumbers initialVersionNumber with
            | None => panic
            | Some versionNumberSlice =>
                match (if 0 <? VersionsCount
                       then slice.upto versionNumberSlice VersionsCount
                       else Some versionNumberSlice) with
                | None => panic
                | Some versionNumberSlice =>
                    r <- retrieveVersionInfos b ModelId
                           (slice.elems versionNumberSlice) []
                           initialVersionNumber ;;
                    match r with
                    | inr err => ret (inr err)
                    | inl r => ret (inl (versionInfosReply r))
                    end
                end
            end
      end
  end.

(** *** Chunked download *)

(** The sending loop of [RetrieveVersionData] from index [i] on.  The loop
    need not end (a chunk size of zero sends empty chunks for ever): [fuel]
    bounds the number of turns, and [None] is a run that used it up. *)
Fixpoint sendChunks (fuel : nat) (s : ModelRegistryServer St) (ctx : Context)
    (modelData : list byte) (dataLen i : Z) (w : World St)
  : option (Outcome St (option error)) :=
  if i <? dataLen then
    match fuel with
    | O => None
    | S fuel' =>
        let size := sentModelVersionDataChunkSize s in
        let bound :=
          if dataLen <=? GoInt.int (i + size) then dataLen
          else GoInt.int (i + size) in
        match slice.bytes modelData i bound with
        | None => Some (Panicked w)
        | Some DataChunk =>
            match Send ctx {| RetrieveVersionDataReplyChunk.DataChunk := DataChunk |} w with
            | Returned (Some err) w' => Some (Returned (Some err) w')
            | Returned None w' =>
                sendChunks fuel' s ctx modelData dataLen (GoInt.int (i + size)) w'
            | Panicked w' => Some (Panicked w')
            end
        end
    end
  else Some (Returned None w).

(** The part of [RetrieveVersionData] up to the sending loop: what the handler
    returns at once, or the payload to send in chunks. *)
Definition fetchVersionData (s : ModelRegistryServer St) (ctx : Context)
    (req : RetrieveVersionDataRequest.t)
  : M St (option error + list byte) :=
  let ModelId := RetrieveVersionDataRequest.ModelId req in
  let VersionNumber := RetrieveVersionDataRequest.VersionNumber req in
  b <- Await s ctx ;;
  match b with
  | inr err => ret (inl (Some err))
  | inl b =>
      r <- invoke (Backend.RetrieveModelVersionData b ModelId
                     (GoInt.int VersionNumber))
                  (CallRetrieveModelVersionData ModelId
                     (GoInt.int VersionNumber)) ;;
      match r with
      | inr (UnknownModelError _ as err)
      | inr (UnknownModelVersionError _ _ as err) =>
          ret (inl (Some (Errorf codes.NotFound (Error err))))
      | inr err =>
          ret (inl (Some (Errorf codes.Internal
            ("unexpected error while retrieving version " +:+ strconv.dquote
             +:+ strconv.FormatUint VersionNumber +:+ strconv.dquote
             +:+ " for model " +:+ strconv.Quote ModelId
             +:+ ": " +:+ Error err))))
      | inl modelData =>
          if GoInt.len modelData =? 0 then
            err <- Send ctx {| RetrieveVersionDataReplyChunk.DataChunk := [] |} ;;
            ret (inl err)
          else ret (inr modelData)
      end
  end.

Definition RetrieveVersionData (fuel : nat) (s : ModelRegistryServer St)
    (ctx : Context) (req : RetrieveVersionDataRequest.t) (w : World St)
  : option (Outcome St (option error)) :=
  match fetchVersionData s ctx req w with
  | Panicked w' => Some (Panicked w')
  | Returned (inl err) w' => Some (Returned err w')
  | Returned (inr modelData) w' =>
      sendChunks fuel s ctx modelData (GoInt.len modelData) 0 w'
  end.

(** *** What a listing asks of the backend *)

(** The identifiers [RetrieveModels] ranges over for a decoded [offset]:
    [req.ModelIds[offset:]], and of that [[:req.ModelsCount]] for a positive
    count, which reaches into the backing array when the count is larger
    than what remains.  (It is what the handler ranges over when both
    slicings are in bounds.) *)
Definition requestedModelIDs (req : RetrieveModelsRequest.t) (offset : Z)
  : list string :=
  if 0 <? RetrieveModelsRequest.ModelsCount req
  then take (Z.to_nat (RetrieveModelsRequest.ModelsCount req))
         (drop (Z.to_nat offset)
            (slice.elems (RetrieveModelsRequest.ModelIds req))
          ++ slice.rest (RetrieveModelsRequest.ModelIds req))
  else drop (Z.to_nat offset)
         (slice.elems (RetrieveModelsRequest.ModelIds req)).

(** The version numbers [RetrieveVersionInfos] ranges over for a decoded
    cursor, in the same way. *)
Definition requestedVersionNumbers (req : RetrieveVersionInfosRequest.t)
    (initialVersionNumber : Z) : list Z :=
  if 0 <? RetrieveVersionInfosRequest.VersionsCount req
  then take (Z.to_nat (RetrieveVersionInfosRequest.VersionsCount req))
         (drop (Z.to_nat initialVersionNumber)
            (slice.elems (RetrieveVersionInfosRequest.VersionNumbers req))
          ++ slice.rest (RetrieveVersionInfosRequest.VersionNumbers req))
  else drop (Z.to_nat initialVersionNumber)
         (slice.elems (RetrieveVersionInfosRequest.VersionNumbers req)).

(** What the backend answers when the models [modelIDs] are looked up one
    after the other from the state [st]: the records it gives and the state
    it is left in when every lookup succeeds, [None] when one fails. *)
Fixpoint lookUpModels (b : Backend.t St) (modelIDs : list string) (st : St)
  : option (list backend.ModelInfo.t * St) :=
  match modelIDs with
  | [] => Some ([], st)
  | modelID :: modelIDs' =>
      match Backend.RetrieveModelInfo b modelID st with
      | (inl modelInfo, st') =>
          match lookUpModels b modelIDs' st' with
          | Some (modelInfos, st'') => Some (modelInfo :: modelInfos, st'')
          | None => None
          end
      | (inr _, _) => None
      end
  end.

(** The same for the versions [versionNumbers] of the model [ModelId], each
    asked for as the [int] the handler converts it to. *)
Fixpoint lookUpVersions (b : Backend.t St) (ModelId : string)
    (versionNumbers : list Z) (st : St)
  : option (list VersionInfo.t * St) :=
  match versionNumbers with
  | [] => Some ([], st)
  | versionNumber :: versionNumbers' =>
      match Backend.RetrieveModelVersionInfo b ModelId
              (GoInt.int versionNumber) st with
      | (inl versionInfo, st') =>
          match lookUpVersions b ModelId versionNumbers' st' with
          | Some (versionInfos, st'') => Some (versionInfo :: versionInfos, st'')
          | None => None
          end
      | (inr _, _) => None
      end
  end.

End Handlers.

End grpcservers.

(** ** An in-memory backend

    The stores of the repository are not among the sources; this one follows
    the contract of the backend interface as the specification words it
    (section 4.1), and serves as the concrete store of the examples. *)

Module memory.

Import backend.

(** Modelled from the spec: the state of a store, which is missing from the
    sources: the models by identifier, their identifiers in creation order,
    and the versions (metadata and payload) by model and number. *)
Record State := mkState {
  models : gmap string ModelInfo.t;
  order : list string;
  versions : gmap (string * Z) (VersionInfo.t * list byte)
}.

(** Modelled from the spec: the empty store a backend starts from (its
    constructor is missing from the sources). *)
Definition empty : State := mkState ∅ [] ∅.

(** Modelled from the spec: [Destroy], missing from the sources, releases
    everything the store holds. *)
Definition Destroy (st : State) : State := empty.

(** Modelled from the spec: [CreateOrUpdateModel], missing from the sources,
    creates the model if absent and otherwise replaces its user data; it
    never alters the latest version number. *)
Definition CreateOrUpdateModel (modelInfo : ModelInfo.t) (st : State)
  : (ModelInfo.t + error) * State :=
  let id := ModelInfo.ModelID modelInfo in
  match models st !! id with
  | None =>
      let info := ModelInfo.Build id 0 (ModelInfo.UserData modelInfo) in
      (inl info, mkState (<[id := info]> (models st)) (order st ++ [id])
                         (versions st))
  | Some old =>
      let info := ModelInfo.Build id (ModelInfo.LatestVersionNumber old)
                    (ModelInfo.UserData modelInfo) in
      (inl info, mkState (<[id := info]> (models st)) (order st) (versions st))
  end.

(** Modelled from the spec: [RetrieveModelInfo], missing from the sources,
    gives the model or [UnknownModel]. *)
Definition RetrieveModelInfo (modelID : string) (st : State)
  : (ModelInfo.t + error) * State :=
  match models st !! modelID with
  | Some info => (inl info, st)
  | None => (inr (UnknownModelError modelID), st)
  end.

(** Modelled from the spec: [HasModel], missing from the sources, never
    errors for a missing model. *)
Definition HasModel (modelID : string) (st : State) : (bool + error) * State :=
  (inl (bool_decide (is_Some (models st !! modelID))), st).

(** Modelled from the spec: [DeleteModel], missing from the sources, removes
    the model and all its versions, or fails with [UnknownModel]. *)
Definition DeleteModel (modelID : string) (st : State) : option error * State :=
  match models st !! modelID with
  | None => (Some (UnknownModelError modelID), st)
  | Some _ =>
      (None, mkState (delete modelID (models st))
                     (filter (fun id => id ≠ modelID) (order st))
                     (filter (fun kv => kv.1.1 ≠ modelID) (versions st)))
  end.

(** Modelled from the spec: [ListModels], missing from the sources, lists the
    models in creation order from [offset] on; a [limit] of zero or less
    means no cap. *)
Definition ListModels (offset limit : Z) (st : State)
  : (list ModelInfo.t + error) * State :=
  let all := omap (fun id => models st !! id) (order st) in
  let from := drop (Z.to_nat offset) all in
  (inl (if 0 <? limit then take (Z.to_nat limit) from else from), st).

(** Modelled from the spec: the metadata a store keeps for a version (the
    store is missing from the sources): the data size is the byte length of
    the payload, the hash the one handed in. *)
Definition versionInfoOf (modelID : string) (n : Z) (versionArgs : VersionArgs.t)
  : VersionInfo.t :=
  {| VersionInfo.ModelID := modelID;
     VersionInfo.VersionNumber := n;
     VersionInfo.CreationTimestamp := VersionArgs.CreationTimestamp versionArgs;
     VersionInfo.Archived := VersionArgs.Archived versionArgs;
     VersionInfo.DataHash := VersionArgs.DataHash versionArgs;
     VersionInfo.DataSize := GoInt.len (VersionArgs.Data versionArgs);
     VersionInfo.UserData := VersionArgs.UserData versionArgs |}.

(** Modelled from the spec: the write of a version record (the store is
    missing from the sources); the latest version number becomes the maximum
    of its previous value and the number written. *)
Definition putVersion (modelID : string) (info : ModelInfo.t) (n : Z)
    (versionArgs : VersionArgs.t) (st : State)
  : (VersionInfo.t + error) * State :=
  let versionInfo := versionInfoOf modelID n versionArgs in
  let info' := ModelInfo.Build modelID
                 (Z.max (ModelInfo.LatestVersionNumber info) n)
                 (ModelInfo.UserData info) in
  (inl versionInfo,
   mkState (<[modelID := info']> (models st)) (order st)
           (<[(modelID, n) := (versionInfo, VersionArgs.Data versionArgs)]>
              (versions st))).

(** Modelled from the spec: [CreateOrUpdateModelVersion], missing from the
    sources.  A version number of zero assigns the next sequential number; an
    existing number replaces that version's record; the next number creates
    it; any other number is refused rather than leaving a gap.  A store that
    requires the model to exist fails with [UnknownModel] when it does not
    ([autoCreate] false), another creates the model. *)
Definition CreateOrUpdateModelVersion (autoCreate : bool) (modelID : string)
    (versionArgs : VersionArgs.t) (st : State)
  : (VersionInfo.t + error) * State :=
  let write (info : ModelInfo.t) (st : State) :=
    let latest := ModelInfo.LatestVersionNumber info in
    let n := VersionArgs.VersionNumber versionArgs in
    if n =? 0 then putVersion modelID info (latest + 1) versionArgs st
    else if bool_decide (is_Some (versions st !! (modelID, n))) then
      putVersion modelID info n versionArgs st
    else if n =? latest + 1 then putVersion modelID info n versionArgs st
    else (inr (otherError "unexpected version number"), st) in
  match models st !! modelID with
  | Some info => write info st
  | None =>
      if autoCreate then
        let info := ModelInfo.Build modelID 0 ∅ in
        write info (mkState (<[modelID := info]> (models st))
                            (order st ++ [modelID]) (versions st))
      else (inr (UnknownModelError modelID), st)
  end.

(** Modelled from the spec: the lookup of a version shared by the retrieval
    and deletion operations (missing from the sources): [UnknownModel] for an
    absent model, [UnknownModelVersion] in its no-version-yet form for the
    number zero or a model without versions, and for the number asked
    otherwise. *)
Definition findVersion (modelID : string) (versionNumber : Z) (st : State)
  : (VersionInfo.t * list byte) + error :=
  match models st !! modelID with
  | None => inr (UnknownModelError modelID)
  | Some info =>
      if ((versionNumber <=? 0)
          || (ModelInfo.LatestVersionNumber info =? 0))%bool
      then inr (UnknownModelVersionError modelID 0)
      else match versions st !! (modelID, versionNumber) with
           | Some v => inl v
           | None => inr (UnknownModelVersionError modelID versionNumber)
           end
  end.

(** Modelled from the spec: [RetrieveModelVersionInfo], missing from the
    sources. *)
Definition RetrieveModelVersionInfo (modelID : string) (versionNumber : Z)
    (st : State) : (VersionInfo.t + error) * State :=
  match findVersion modelID versionNumber st with
  | inl v => (inl v.1, st)
  | inr err => (inr err, st)
  end.

(** Modelled from the spec: [RetrieveModelVersionData], missing from the
    sources. *)
Definition RetrieveModelVersionData (modelID : string) (versionNumber : Z)
    (st : State) : (list byte + error) * State :=
  match findVersion modelID versionNumber st with
  | inl v => (inl v.2, st)
  | inr err => (inr err, st)
  end.

(** Modelled from the spec: [DeleteModelVersion], missing from the sources;
    the numbers of the other versions and the latest version number stay. *)
Definition DeleteModelVersion (modelID : string) (versionNumber : Z)
    (st : State) : option error * State :=
  match findVersion modelID versionNumber st with
  | inl _ =>
      (None, mkState (models st) (order st)
                     (delete (modelID, versionNumber) (versions st)))
  | inr err => (Some err, st)
  end.

(** Modelled from the spec: [ListModelVersionInfos], missing from the
    sources, lists the versions numbered [initialVersionNumber] or more by
    increasing number; a [limit] of zero or less means no cap. *)
Definition ListModelVersionInfos (modelID : string)
    (initialVersionNumber limit : Z) (st : State)
  : (list VersionInfo.t + error) * State :=
  match models st !! modelID with
  | None => (inr (UnknownModelError modelID), st)
  | Some info =>
      let first := Z.max initialVersionNumber 1 in
      let numbers :=
        seqZ first (ModelInfo.LatestVersionNumber info - first + 1) in
      let all := omap (fun n => fst <$> versions st !! (modelID, n)) numbers in
      (inl (if 0 <? limit then take (Z.to_nat limit) all else all), st)
  end.

(** Modelled from the spec: the store as a [Backend] (its constructor is
    missing from the sources). *)
Definition CreateBackend (autoCreate : bool) : Backend.t State :=
  {| Backend.Destroy := Destroy;
     Backend.CreateOrUpdateModel := CreateOrUpdateModel;
     Backend.RetrieveModelInfo := RetrieveModelInfo;
     Backend.HasModel := HasModel;
     Backend.DeleteModel := DeleteModel;
     Backend.ListModels := ListModels;
     Backend.CreateOrUpdateModelVersion := CreateOrUpdateModelVersion autoCreate;
     Backend.RetrieveModelVersionInfo := RetrieveModelVersionInfo;
     Backend.RetrieveModelVersionData := RetrieveModelVersionData;
     Backend.DeleteModelVersion := DeleteModelVersion;
     Backend.ListModelVersionInfos := ListModelVersionInfos |}.

End memory.

(** ** The rejected uploads, as the specification lists them *)

Module upload.

Import grpcapi.

(** The messages of a stream that is a header followed by payload fragments
    only. *)
Definition chunks (header : option ModelVersionInfo.t) (bodies : list (list byte))
  : list (CreateVersionRequestChunk.t + error) :=
  inl (CreateVersionRequestChunk.Header header)
  :: map (fun body => inl (CreateVersionRequestChunk.Body body)) bodies.

(** The five ways an upload is malformed: an empty stream, a first message
    without a header, a later message without a body, a payload whose size is
    not the declared one, a declared hash that is not the payload's. *)
Inductive Malformed (hash : list byte -> string)
  : list (CreateVersionRequestChunk.t + error) -> Prop :=
| EmptyStream : Malformed hash []
| NoHeader chunk rest :
    CreateVersionRequestChunk.GetHeader chunk = None ->
    Malformed hash (inl chunk :: rest)
| NoBody header bodies chunk rest :
    CreateVersionRequestChunk.GetBody chunk = None ->
    Malformed hash (chunks header bodies ++ inl chunk :: rest)
| SizeMismatch versionInfo bodies :
    GoInt.uint64 (GoInt.len (concat bodies))
    <> ModelVersionInfo.DataSize versionInfo ->
    Malformed hash (chunks (Some versionInfo) bodies)
| HashMismatch versionInfo bodies :
    GoInt.uint64 (GoInt.len (concat bodies))
    = ModelVersionInfo.DataSize versionInfo ->
    ModelVersionInfo.DataHash versionInfo <> EmptyString ->
    ModelVersionInfo.DataHash versionInfo <> hash (concat bodies) ->
    Malformed hash (chunks (Some versionInfo) bodies).

End upload.

(** ** Concrete servers, requests and streams for the examples *)

Module fixture.

Import backend grpcapi grpcservers.

(** A stand-in for the content hash: the decimal values of the bytes. *)
Definition hash (data : list byte) : string :=
  String.concat "."
    (map (fun b => strconv.FormatUint (Z.of_N (Byte.to_N b))) data).

(** A server over the in-memory store, sending chunks of two bytes. *)
Definition server (autoCreate : bool) : ModelRegistryServer memory.State :=
  mkServer (Some (memory.CreateBackend autoCreate)) 2.

Definition ctx : Context :=
  mkContext (otherError "context canceled") (fun _ => None) None 1000.

Definition world (st : memory.State)
    (stream : list (CreateVersionRequestChunk.t + error))
  : World memory.State :=
  mkWorld st [] stream [] None.

Definition header (VersionNumber DataSize : Z) (DataHash : string)
  : option ModelVersionInfo.t :=
  Some (ModelVersionInfo.Build "m1" VersionNumber 0 false DataHash DataSize ∅).

(** The state of the backend after a run, whether it returned or panicked. *)
Definition stateAfter {A} (o : Outcome memory.State A) : memory.State :=
  match o with Returned _ w | Panicked w => backendState w end.

(** The store after the upload of [data] for model [m1]. *)
Definition stored (st : memory.State) (VersionNumber : Z) (data : list byte)
  : memory.State :=
  stateAfter
    (CreateVersion hash (server true) ctx
       (world st (upload.chunks (header VersionNumber (GoInt.len data) EmptyString)
                    [data]))).

(** A context of a call whose second [Send] fails. *)
Definition ctxBroken : Context :=
  mkContext (otherError "context canceled")
    (fun k => if Nat.eqb k 1 then Some (otherError "broken pipe") else None)
    None 1000.

(** A store that holds the models [a] and [b], without versions. *)
Definition twoModels : memory.State :=
  snd (memory.CreateOrUpdateModel (backend.ModelInfo.Build "b" 0 ∅)
         (snd (memory.CreateOrUpdateModel (backend.ModelInfo.Build "a" 0 ∅)
                 memory.empty))).

End fixture.

(** * Properties *)

(** ** Arithmetic of the conversions *)

Lemma int_small (x : Z) : - 2 ^ 63 <= x < 2 ^ 63 -> GoInt.int x = x.
Proof.
  intros H. unfold GoInt.int, GoInt.int64.
  rewrite Z.mod_small; lia.
Qed.

Lemma uint64_small (x : Z) : 0 <= x < 2 ^ 64 -> GoInt.uint64 x = x.
Proof. intros H. unfold GoInt.uint64. apply Z.mod_small; lia. Qed.

Lemma uint32_small (x : Z) : 0 <= x < 2 ^ 32 -> GoInt.uint32 x = x.
Proof. intros H. unfold GoInt.uint32. apply Z.mod_small; lia. Qed.

Lemma len_nonneg {A} (l : list A) : 0 <= GoInt.len l.
Proof. unfold GoInt.len. lia. Qed.

Lemma len_app {A} (l k : list A) :
  GoInt.len (l ++ k) = GoInt.len l + GoInt.len k.
Proof. unfold GoInt.len. rewrite length_app. lia. Qed.

(** ** The messages of the backend's errors *)

Section ErrorMessages.

Import backend.

(** C9.  The message of an [UnknownModelVersionError] is the no-version-yet
    wording exactly when its version number is zero or less, and otherwise
    (exactly when the number is positive) the wording that names the missing
    version number in decimal; for version number 0 it is the
    no-version-yet wording. *)
Theorem UnknownModelVersionError_wording (ModelID : string) (VersionNumber : Z) :
  (VersionNumber <= 0 <->
   Error (UnknownModelVersionError ModelID VersionNumber)
   = "model " +:+ strconv.Quote ModelID +:+ " doesn't have any version yet")
  /\ (0 < VersionNumber <->
      Error (UnknownModelVersionError ModelID VersionNumber)
      = "no version " +:+ strconv.dquote +:+ strconv.FormatInt VersionNumber
          +:+ strconv.dquote +:+ " for model " +:+ strconv.Quote ModelID
          +:+ " found")
  /\ Error (UnknownModelVersionError ModelID 0)
     = "model " +:+ strconv.Quote ModelID +:+ " doesn't have any version yet".
Proof.
  split; [| split]; [| | reflexivity].
  - unfold Error. destruct (Z.leb_spec VersionNumber 0) as [Hle | Hgt].
    + split; [reflexivity | intros _; exact Hle].
    + split; [lia | discriminate].
  - unfold Error. destruct (Z.leb_spec VersionNumber 0) as [Hle | Hgt].
    + split; [lia | discriminate].
    + split; [reflexivity | intros _; exact Hgt].
Qed.

End ErrorMessages.

(** ** Chunked download *)

Section Download.

Import backend grpcapi grpcservers.
Context {St : Type}.

Lemma sendChunks_done fuel (s : ModelRegistryServer St) ctx modelData dataLen i w :
  dataLen <= i ->
  sendChunks fuel s ctx modelData dataLen i w = Some (Returned None w).
Proof.
  intros H. destruct fuel; simpl;
    (destruct (Z.ltb_spec i dataLen); [lia | reflexivity]).
Qed.

Lemma sendChunks_step fuel (s : ModelRegistryServer St) ctx modelData dataLen i w DataChunk :
  i < dataLen ->
  slice.bytes modelData i
    (if dataLen <=? GoInt.int (i + sentModelVersionDataChunkSize s) then dataLen
     else GoInt.int (i + sentModelVersionDataChunkSize s)) = Some DataChunk ->
  sendError ctx (length (outStream w)) = None ->
  sendChunks (S fuel) s ctx modelData dataLen i w
  = sendChunks fuel s ctx modelData dataLen
      (GoInt.int (i + sentModelVersionDataChunkSize s))
      (mkWorld (backendState w) (backendCalls w) (inStream w)
         (outStream w ++ [RetrieveVersionDataReplyChunk.Build DataChunk]) (closed w)).
Proof.
  intros Hi Hs He. simpl.
  destruct (Z.ltb_spec i dataLen); [| lia].
  rewrite Hs. unfold Send. rewrite He. reflexivity.
Qed.

Lemma sendChunks_spec (s : ModelRegistryServer St) ctx modelData :
  0 < sentModelVersionDataChunkSize s ->
  (forall k, sendError ctx k = None) ->
  GoInt.len modelData + sentModelVersionDataChunkSize s <= GoInt.MaxInt ->
  forall fuel i w,
    0 <= i < GoInt.len modelData ->
    (Z.to_nat (GoInt.len modelData - i) <= fuel)%nat ->
    exists init final w',
      sendChunks fuel s ctx modelData (GoInt.len modelData) i w
      = Some (Returned None w')
      /\ outStream w'
         = outStream w ++ map RetrieveVersionDataReplyChunk.Build (init ++ [final])
      /\ concat (init ++ [final]) = drop (Z.to_nat i) modelData
      /\ Forall (fun c => GoInt.len c = sentModelVersionDataChunkSize s) init
      /\ 0 < GoInt.len final <= sentModelVersionDataChunkSize s
      /\ sameBut_outStream w w'.
Proof.
  intros Hsize Hsend Hmax. set (size := sentModelVersionDataChunkSize s) in *.
  unfold GoInt.MaxInt in Hmax.
  induction fuel as [| fuel IH]; intros i w Hi Hfuel; [lia |].
  assert (Hint : GoInt.int (i + size) = i + size) by (apply int_small; lia).
  destruct (Z.le_gt_cases (GoInt.len modelData) (i + size)) as [Hlast | Hmore].
  - (* the final chunk *)
    exists [], (drop (Z.to_nat i) modelData). eexists.
    rewrite (sendChunks_step _ _ _ _ _ _ _ (drop (Z.to_nat i) modelData));
      [| lia | | apply Hsend].
    + rewrite sendChunks_done by (fold size; lia).
      split; [reflexivity |]. simpl. rewrite app_nil_r.
      split; [reflexivity |]. split; [reflexivity |]. split; [constructor |].
      split; [| repeat split].
      unfold GoInt.len in *. rewrite length_drop. lia.
    + fold size. rewrite Hint.
      destruct (Z.leb_spec (GoInt.len modelData) (i + size)); [| lia].
      unfold slice.bytes.
      destruct (Z.leb_spec 0 i); [| lia].
      destruct (Z.leb_spec i (GoInt.len modelData)); [| lia].
      rewrite Z.leb_refl. simpl. f_equal.
      apply take_ge. rewrite length_drop. unfold GoInt.len. lia.
  - (* a full chunk, and the rest *)
    set (chunk := take (Z.to_nat size) (drop (Z.to_nat i) modelData)).
    assert (Hlen : GoInt.len chunk = size).
    { unfold chunk, GoInt.len in *. rewrite length_take, length_drop. lia. }
    destruct (IH (i + size)
                (mkWorld (backendState w) (backendCalls w) (inStream w)
                   (outStream w ++ [RetrieveVersionDataReplyChunk.Build chunk])
                   (closed w)))
      as (init & final & w' & Hrun & Hout & Hcat & Hall & Hfin & Hsame);
      [lia | lia |].
    exists (chunk :: init), final, w'.
    rewrite (sendChunks_step _ _ _ _ _ _ _ chunk); [| lia | | apply Hsend].
    + fold size. rewrite Hint. split; [exact Hrun |].
      split; [rewrite Hout; simpl; rewrite <- app_assoc; reflexivity |].
      split.
      { simpl. change (concat (init ++ [final])) with (concat (init ++ [final])).
        rewrite Hcat. unfold chunk.
        replace (Z.to_nat (i + size)) with (Z.to_nat i + Z.to_nat size)%nat by lia.
        rewrite <- drop_drop. apply take_drop. }
      split; [constructor; assumption |].
      split; [exact Hfin | exact Hsame].
    + fold size. rewrite Hint.
      destruct (Z.leb_spec (GoInt.len modelData) (i + size)); [lia |].
      unfold slice.bytes.
      destruct (Z.leb_spec 0 i); [| lia].
      destruct (Z.leb_spec i (i + size)); [| lia].
      destruct (Z.leb_spec (i + size) (GoInt.len modelData)); [| lia].
      simpl. unfold chunk. do 3 f_equal. lia.
Qed.


(** What [RetrieveVersionData] does once the backend gave the payload. *)
Lemma fetchVersionData_payload (s : ModelRegistryServer St) ctx req b w modelData st' :
  backendPromise s = Some b ->
  Backend.RetrieveModelVersionData b (RetrieveVersionDataRequest.ModelId req)
    (GoInt.int (RetrieveVersionDataRequest.VersionNumber req)) (backendState w)
  = (inl modelData, st') ->
  0 < GoInt.len modelData ->
  exists w',
    fetchVersionData s ctx req w = Returned (inr modelData) w'
    /\ outStream w' = outStream w.
Proof.
  intros Hb Hdata Hlen.
  unfold fetchVersionData, Await, bind, ret, invoke. rewrite Hb, Hdata.
  destruct (Z.eqb_spec (GoInt.len modelData) 0); [lia |].
  eexists. split; reflexivity.
Qed.

(** C7.  When the stored payload of the requested version has length zero,
    [RetrieveVersionData] hands exactly one chunk to [Send], that chunk is
    empty, and the handler returns what that [Send] returned: the chunks sent
    grow by one empty chunk, never by none. *)
Theorem RetrieveVersionData_empty_payload fuel (s : ModelRegistryServer St)
    ctx req b w modelData st' :
  backendPromise s = Some b ->
  Backend.RetrieveModelVersionData b (RetrieveVersionDataRequest.ModelId req)
    (GoInt.int (RetrieveVersionDataRequest.VersionNumber req)) (backendState w)
  = (inl modelData, st') ->
  GoInt.len modelData = 0 ->
  exists w',
    RetrieveVersionData fuel s ctx req w
    = Some (Returned (sendError ctx (length (outStream w))) w')
    /\ outStream w' = outStream w ++ [RetrieveVersionDataReplyChunk.Build []]
    /\ length (outStream w') = S (length (outStream w)).
Proof.
  intros Hb Hdata Hlen.
  unfold RetrieveVersionData, fetchVersionData, Await, bind, ret, invoke, Send.
  rewrite Hb, Hdata. simpl. rewrite Hlen. simpl.
  eexists. split; [reflexivity |]. simpl. split; [reflexivity |].
  rewrite length_app. simpl. lia.
Qed.

(** C6.  For a non-empty stored payload, a positive chunk size and a stream
    that accepts every chunk, [RetrieveVersionData] returns without error
    after sending chunks that concatenate, in order, to the payload: every
    chunk but the last has the configured size and the last one, not empty,
    holds the remainder. *)
Theorem RetrieveVersionData_chunks fuel (s : ModelRegistryServer St)
    ctx req b w modelData st' :
  backendPromise s = Some b ->
  Backend.RetrieveModelVersionData b (RetrieveVersionDataRequest.ModelId req)
    (GoInt.int (RetrieveVersionDataRequest.VersionNumber req)) (backendState w)
  = (inl modelData, st') ->
  0 < GoInt.len modelData ->
  0 < sentModelVersionDataChunkSize s ->
  GoInt.len modelData + sentModelVersionDataChunkSize s <= GoInt.MaxInt ->
  (forall k, sendError ctx k = None) ->
  (length modelData <= fuel)%nat ->
  exists init final w',
    RetrieveVersionData fuel s ctx req w = Some (Returned None w')
    /\ outStream w'
       = outStream w ++ map RetrieveVersionDataReplyChunk.Build (init ++ [final])
    /\ concat (init ++ [final]) = modelData
    /\ Forall (fun c => GoInt.len c = sentModelVersionDataChunkSize s) init
    /\ 0 < GoInt.len final <= sentModelVersionDataChunkSize s.
Proof.
  intros Hb Hdata Hlen Hsize Hmax Hsend Hfuel.
  destruct (fetchVersionData_payload s ctx req b w modelData st' Hb Hdata Hlen)
    as (w1 & Hfetch & Hout1).
  destruct (sendChunks_spec s ctx modelData Hsize Hsend Hmax fuel 0 w1)
    as (init & final & w' & Hrun & Hout & Hcat & Hall & Hfin & _).
  - lia.
  - unfold GoInt.len. lia.
  - exists init, final, w'. unfold RetrieveVersionData. rewrite Hfetch.
    split; [exact Hrun |]. split; [rewrite Hout, Hout1; reflexivity |].
    split; [exact Hcat |]. split; assumption.
Qed.

(** With a chunk size of zero the sending loop never ends: it uses up any
    fuel on empty chunks. *)
Lemma sendChunks_zero_size ctx b modelData :
  0 < GoInt.len modelData ->
  (forall k, sendError ctx k = None) ->
  forall fuel (w : World St),
    sendChunks fuel (mkServer b 0) ctx modelData (GoInt.len modelData) 0 w
    = None.
Proof.
  intros Hlen Hsend. induction fuel as [| fuel IH]; intros w.
  - simpl. destruct (Z.ltb_spec 0 (GoInt.len modelData)); [reflexivity | lia].
  - rewrite (sendChunks_step _ _ _ _ _ _ _ []); [apply IH | lia | | apply Hsend].
    cbn [sentModelVersionDataChunkSize]. change (GoInt.int (0 + 0)) with 0.
    destruct (Z.leb_spec (GoInt.len modelData) 0); [lia |].
    unfold slice.bytes. simpl.
    destruct (Z.leb_spec 0 (GoInt.len modelData)); [reflexivity | lia].
Qed.

End Download.

Lemma RetrieveVersionData_empty_payload_witness :
  exists w',
    grpcservers.RetrieveVersionData 0 (fixture.server true) fixture.ctx
      (grpcapi.RetrieveVersionDataRequest.Build "m1" 1)
      (fixture.world (fixture.stored memory.empty 0 []) [])
    = Some (grpcservers.Returned None w')
    /\ grpcservers.outStream w' = [grpcapi.RetrieveVersionDataReplyChunk.Build []]
    /\ length (grpcservers.outStream w') = 1%nat.
Proof.
  apply (RetrieveVersionData_empty_payload 0 (fixture.server true) fixture.ctx
           (grpcapi.RetrieveVersionDataRequest.Build "m1" 1)
           (memory.CreateBackend true)
           (fixture.world (fixture.stored memory.empty 0 []) []) []
           (fixture.stored memory.empty 0 []));
    [reflexivity | vm_compute; reflexivity | reflexivity].
Defined.

Lemma RetrieveVersionData_chunks_witness :
  exists init final w',
    grpcservers.RetrieveVersionData 5 (fixture.server true) fixture.ctx
      (grpcapi.RetrieveVersionDataRequest.Build "m1" 1)
      (fixture.world (fixture.stored memory.empty 0 [x01; x02; x03; x04; x05]) [])
    = Some (grpcservers.Returned None w')
    /\ grpcservers.outStream w'
       = [] ++ map grpcapi.RetrieveVersionDataReplyChunk.Build (init ++ [final])
    /\ concat (init ++ [final]) = [x01; x02; x03; x04; x05]
    /\ Forall (fun c => GoInt.len c = 2) init
    /\ 0 < GoInt.len final <= 2.
Proof.
  apply (RetrieveVersionData_chunks 5 (fixture.server true) fixture.ctx
           (grpcapi.RetrieveVersionDataRequest.Build "m1" 1)
           (memory.CreateBackend true)
           (fixture.world (fixture.stored memory.empty 0 [x01; x02; x03; x04; x05]) [])
           [x01; x02; x03; x04; x05]
           (fixture.stored memory.empty 0 [x01; x02; x03; x04; x05]));
    [ reflexivity | vm_compute; reflexivity | vm_compute; reflexivity
    | reflexivity | vm_compute; discriminate | intros k; reflexivity
    | simpl; lia ].
Defined.

Example download_five_bytes :
  match grpcservers.RetrieveVersionData 5 (fixture.server true) fixture.ctx
      (grpcapi.RetrieveVersionDataRequest.Build "m1" 1)
      (fixture.world (fixture.stored memory.empty 0 [x01; x02; x03; x04; x05]) []) with
  | Some (grpcservers.Returned None w') =>
      map grpcapi.RetrieveVersionDataReplyChunk.DataChunk (grpcservers.outStream w')
  | _ => []
  end = [[x01; x02]; [x03; x04]; [x05]].
Proof. vm_compute. reflexivity. Qed.
(** ** Chunked upload *)

Section Upload.

Import backend grpcapi grpcservers.
Context {St : Type}.
Variable hash : list byte -> string.

(** Payload fragments are all read and appended, whatever their number and
    size. *)
Lemma receiveLoop_bodies receivedVersionInfo bodies modelData rest :
  receiveLoop receivedVersionInfo modelData
    (map (fun body => inl (CreateVersionRequestChunk.Body body)) bodies ++ rest)
  = receiveLoop receivedVersionInfo (modelData ++ concat bodies) rest.
Proof.
  revert modelData.
  induction bodies as [| body bodies IH]; intros modelData; simpl.
  - rewrite app_nil_r. reflexivity.
  - rewrite IH, <- app_assoc. reflexivity.
Qed.

(** At the end of the stream the payload is accepted exactly when its size
    is the declared one. *)
Lemma receiveStep_EOF versionInfo modelData :
  receiveStep (Some versionInfo) modelData (inr EOF)
  = if GoInt.uint64 (GoInt.len modelData) =? ModelVersionInfo.DataSize versionInfo
    then Break modelData
    else Return (Errorf codes.InvalidArgument
           ("stream ended while having not received the expected data, expected "
            +:+ strconv.FormatUint (ModelVersionInfo.DataSize versionInfo)
            +:+ " bytes, received "
            +:+ strconv.FormatUint (GoInt.uint64 (GoInt.len modelData))
            +:+ " bytes")).
Proof.
  unfold receiveStep. simpl.
  destruct (GoInt.uint64 (GoInt.len modelData)
            =? ModelVersionInfo.DataSize versionInfo); reflexivity.
Qed.

(** [CreateVersion] on a header and payload fragments, followed by [rest]. *)
Lemma CreateVersion_chunks (s : ModelRegistryServer St) ctx st calls out cl
    header bodies rest :
  CreateVersion hash s ctx
    (mkWorld st calls (upload.chunks header bodies ++ rest) out cl)
  = match receiveLoop header (concat bodies) rest with
    | (Return err, rest') => Returned (Some err) (mkWorld st calls rest' out cl)
    | (NilDereference, rest') => Panicked (mkWorld st calls rest' out cl)
    | (Break modelData, rest') | (Continue modelData, rest') =>
        match header with
        | None => Panicked (mkWorld st calls rest' out cl)
        | Some versionInfo =>
            commitVersion hash s ctx versionInfo modelData
              (mkWorld st calls rest' out cl)
        end
    end.
Proof.
  unfold CreateVersion, bind, Recv, receiveData, upload.chunks. simpl.
  rewrite receiveLoop_bodies. simpl.
  destruct (receiveLoop header (concat bodies) rest) as [[d | d | e |] rest'];
    try reflexivity; destruct header; reflexivity.
Qed.

(** The part after the loop invokes the backend at most once, with version
    number 0 and the hash of the bytes it hands over. *)
Lemma commitVersion_calls (s : ModelRegistryServer St) ctx versionInfo modelData w :
  match commitVersion hash s ctx versionInfo modelData w with
  | Returned _ w' | Panicked w' =>
      inStream w' = inStream w /\ outStream w' = outStream w
      /\ ((backendCalls w' = backendCalls w /\ backendState w' = backendState w
           /\ closed w' = closed w)
          \/ exists versionArgs,
               backendCalls w'
               = backendCalls w
                 ++ [CallCreateOrUpdateModelVersion
                       (ModelVersionInfo.ModelId versionInfo) versionArgs]
               /\ VersionArgs.VersionNumber versionArgs = 0
               /\ VersionArgs.Data versionArgs = modelData
               /\ VersionArgs.DataHash versionArgs = hash modelData)
  end.
Proof.
  unfold commitVersion, Await, bind, ret, invoke, SendAndClose.
  destruct (_ && _)%bool; [auto 6 |].
  destruct (backendPromise s) as [b |]; [| auto 6].
  destruct (Backend.CreateOrUpdateModelVersion b _ _ _) as [[vi | err] st'];
    simpl; (split; [reflexivity |]; split; [reflexivity |]; right;
            eexists; split; [reflexivity |]; auto).
Qed.

(** C5.  A malformed upload (an empty stream, a first message without a
    header, a later message without a body, a payload of another size than
    declared, a declared hash other than the payload's) is rejected as an
    invalid argument without any operation of the backend being invoked: the
    calls made, the state of the backend and the reply are as before. *)
Theorem CreateVersion_rejected_without_backend_call
    (s : ModelRegistryServer St) ctx w :
  upload.Malformed hash (inStream w) ->
  exists msg w',
    CreateVersion hash s ctx w
    = Returned (Some (statusError codes.InvalidArgument msg)) w'
    /\ backendCalls w' = backendCalls w
    /\ backendState w' = backendState w
    /\ closed w' = closed w.
Proof.
  destruct w as [st calls stream out cl]. simpl. intros H.
  destruct H as [| chunk rest Hh | header bodies chunk rest Hb
                 | versionInfo bodies Hsize | versionInfo bodies Hsize Hne Hhash].
  - do 2 eexists. split; [reflexivity | auto].
  - unfold CreateVersion, bind, Recv. simpl. rewrite Hh.
    do 2 eexists. split; [reflexivity | auto].
  - rewrite CreateVersion_chunks. simpl. unfold receiveStep. rewrite Hb.
    do 2 eexists. split; [reflexivity | auto].
  - rewrite <- (app_nil_r (upload.chunks _ _)), CreateVersion_chunks.
    cbn [receiveLoop]. rewrite receiveStep_EOF.
    destruct (Z.eqb_spec (GoInt.uint64 (GoInt.len (concat bodies)))
                (ModelVersionInfo.DataSize versionInfo)); [contradiction |].
    do 2 eexists. split; [reflexivity | auto].
  - rewrite <- (app_nil_r (upload.chunks _ _)), CreateVersion_chunks.
    cbn [receiveLoop]. rewrite receiveStep_EOF, Hsize, Z.eqb_refl.
    unfold commitVersion.
    apply String.eqb_neq in Hne, Hhash. rewrite Hne, Hhash. simpl.
    do 2 eexists. split; [reflexivity | auto].
Qed.


(** C4.  For a complete upload (a header, then payload fragments whose total
    size is the declared one) the hash is computed over the assembled
    buffer.  A declared hash that is not empty and differs from it has the
    call rejected as an invalid argument, the backend not invoked.
    Otherwise the backend is invoked once, with the assembled bytes and
    their computed hash as the hash to store, whatever hash was declared;
    and the version record the backend returns is the reply. *)
Theorem CreateVersion_hands_over_computed_hash (s : ModelRegistryServer St)
    ctx b st calls out cl versionInfo bodies :
  backendPromise s = Some b ->
  GoInt.uint64 (GoInt.len (concat bodies))
  = ModelVersionInfo.DataSize versionInfo ->
  (ModelVersionInfo.DataHash versionInfo <> EmptyString
   /\ ModelVersionInfo.DataHash versionInfo <> hash (concat bodies) ->
   exists msg,
     CreateVersion hash s ctx
       (mkWorld st calls (upload.chunks (Some versionInfo) bodies) out cl)
     = Returned (Some (statusError codes.InvalidArgument msg))
         (mkWorld st calls [] out cl))
  /\ (ModelVersionInfo.DataHash versionInfo = EmptyString
      \/ ModelVersionInfo.DataHash versionInfo = hash (concat bodies) ->
      exists r w' versionArgs,
        CreateVersion hash s ctx
          (mkWorld st calls (upload.chunks (Some versionInfo) bodies) out cl)
        = Returned r w'
        /\ backendCalls w'
           = calls ++ [CallCreateOrUpdateModelVersion
                         (ModelVersionInfo.ModelId versionInfo) versionArgs]
        /\ VersionArgs.Data versionArgs = concat bodies
        /\ VersionArgs.DataHash versionArgs = hash (concat bodies)
        /\ forall stored st',
             Backend.CreateOrUpdateModelVersion b
               (ModelVersionInfo.ModelId versionInfo) versionArgs st
             = (inl stored, st') ->
             r = closeError ctx /\ backendState w' = st'
             /\ closed w'
                = Some (CreateVersionReply.Build (createPbModelVersionInfo stored))).
Proof.
  intros Hb Hsize.
  rewrite <- (app_nil_r (upload.chunks _ _)), CreateVersion_chunks.
  cbn [receiveLoop]. rewrite receiveStep_EOF, Hsize, Z.eqb_refl.
  unfold commitVersion, Await, bind, ret, invoke, SendAndClose. rewrite Hb.
  split.
  - intros [Hne Hhash]. apply String.eqb_neq in Hne, Hhash.
    rewrite Hne, Hhash. simpl. eexists. reflexivity.
  - intros Hok.
    assert (Hcond : (negb (ModelVersionInfo.DataHash versionInfo =? EmptyString)%string
                     && negb (ModelVersionInfo.DataHash versionInfo
                              =? hash (concat bodies))%string)%bool = false).
    { destruct Hok as [-> | ->].
      - reflexivity.
      - rewrite String.eqb_refl. apply andb_false_r. }
    rewrite Hcond. simpl.
    match goal with
    | |- context [Backend.CreateOrUpdateModelVersion b ?id ?args st] =>
        destruct (Backend.CreateOrUpdateModelVersion b id args st)
          as [[stored | err] st1] eqn:Hcall; simpl;
        do 2 eexists; exists args
    end.
    + split; [reflexivity |]. split; [reflexivity |].
      split; [reflexivity |]. split; [reflexivity |].
      intros stored' st' Heq. rewrite Hcall in Heq.
      injection Heq as <- <-. auto.
    + split; [reflexivity |]. split; [reflexivity |].
      split; [reflexivity |]. split; [reflexivity |].
      intros stored' st' Heq. rewrite Hcall in Heq. discriminate.
Qed.

(** The loop never ends on a turn that asks for another one. *)
Lemma receiveLoop_exits receivedVersionInfo stream :
  forall modelData received,
    fst (receiveLoop receivedVersionInfo modelData stream) <> Continue received.
Proof.
  induction stream as [| r rest IH]; intros modelData received.
  - cbn [receiveLoop fst].
    destruct receivedVersionInfo as [vi |]; [| discriminate].
    rewrite receiveStep_EOF. destruct (_ =? _); discriminate.
  - cbn [receiveLoop].
    destruct (receiveStep receivedVersionInfo modelData r);
      try discriminate. apply IH.
Qed.

(** X19.  Whatever the stream holds, [CreateVersion] invokes the backend at
    most once; when it does, it is [CreateOrUpdateModelVersion] with version
    number 0 and, as the hash to store, the hash of the bytes it hands
    over.  When it does not, the state of the backend and the reply are as
    before. *)
Lemma CreateVersion_backend_calls (s : ModelRegistryServer St) ctx w :
  match CreateVersion hash s ctx w with
  | Returned _ w' | Panicked w' =>
      (backendCalls w' = backendCalls w /\ backendState w' = backendState w
       /\ closed w' = closed w)
      \/ exists ModelId versionArgs,
           backendCalls w'
           = backendCalls w ++ [CallCreateOrUpdateModelVersion ModelId versionArgs]
           /\ VersionArgs.VersionNumber versionArgs = 0
           /\ VersionArgs.DataHash versionArgs
              = hash (VersionArgs.Data versionArgs)
  end.
Proof.
  destruct w as [st calls stream out cl].
  unfold CreateVersion, bind, ret, panic, Recv, receiveData. simpl.
  destruct stream as [| [chunk | err] rest]; simpl.
  - auto.
  - destruct chunk as [header | body |]; simpl; [| auto | auto].
    destruct (receiveLoop header [] rest) as [[d | d | e |] rest']; simpl; auto;
      (destruct header as [vi |]; simpl; [| auto]);
      pose proof (commitVersion_calls s ctx vi d (mkWorld st calls rest' out cl))
        as Hc;
      (destruct (commitVersion hash s ctx vi d _) as [r w' | w']);
      simpl in Hc; destruct Hc as (_ & _ & [Hc | (args & Hc & Hn & Hd & Hh)]);
      try (left; exact Hc);
      right; exists (ModelVersionInfo.ModelId vi), args; rewrite Hd; auto.
  - destruct err; simpl; auto.
Qed.

End Upload.

(** ** Uploads into the in-memory store *)

Section UploadToMemory.

Import backend grpcapi grpcservers.
Variable hash : list byte -> string.

(** C1, as amended.  [CreateVersion] does not pass the version number of the
    header on: the backend receives version number 0 whatever the header
    carries.  On the in-memory store a completed upload for a model whose
    latest version is [n] therefore creates version [n + 1], which becomes
    the latest version number, and leaves the record of every other version
    of the model as it was. *)
Theorem CreateVersion_assigns_next_number autoCreate size ctx st calls out cl
    versionInfo bodies info :
  memory.models st !! ModelVersionInfo.ModelId versionInfo = Some info ->
  GoInt.uint64 (GoInt.len (concat bodies))
  = ModelVersionInfo.DataSize versionInfo ->
  ModelVersionInfo.DataHash versionInfo = EmptyString
  \/ ModelVersionInfo.DataHash versionInfo = hash (concat bodies) ->
  exists w' versionArgs reply,
    CreateVersion hash (mkServer (Some (memory.CreateBackend autoCreate)) size) ctx
      (mkWorld st calls (upload.chunks (Some versionInfo) bodies) out cl)
    = Returned (closeError ctx) w'
    /\ backendCalls w'
       = calls ++ [CallCreateOrUpdateModelVersion
                     (ModelVersionInfo.ModelId versionInfo) versionArgs]
    /\ VersionArgs.VersionNumber versionArgs = 0
    /\ closed w' = Some reply
    /\ ModelVersionInfo.VersionNumber (CreateVersionReply.VersionInfo reply)
       = GoInt.uint32 (ModelInfo.LatestVersionNumber info + 1)
    /\ ModelInfo.LatestVersionNumber
         <$> memory.models (backendState w') !! ModelVersionInfo.ModelId versionInfo
       = Some (ModelInfo.LatestVersionNumber info + 1)
    /\ snd <$> memory.versions (backendState w')
                 !! (ModelVersionInfo.ModelId versionInfo,
                     ModelInfo.LatestVersionNumber info + 1)
       = Some (concat bodies)
    /\ forall n,
         n <> ModelInfo.LatestVersionNumber info + 1 ->
         memory.versions (backendState w')
           !! (ModelVersionInfo.ModelId versionInfo, n)
         = memory.versions st !! (ModelVersionInfo.ModelId versionInfo, n).
Proof.
  intros Hmodel Hsize Hok.
  rewrite <- (app_nil_r (upload.chunks _ _)), CreateVersion_chunks.
  cbn [receiveLoop]. rewrite receiveStep_EOF, Hsize, Z.eqb_refl.
  unfold commitVersion, Await, bind, ret, invoke, SendAndClose.
  assert (Hcond : (negb (ModelVersionInfo.DataHash versionInfo =? EmptyString)%string
                   && negb (ModelVersionInfo.DataHash versionInfo
                            =? hash (concat bodies))%string)%bool = false).
  { destruct Hok as [-> | ->].
    - reflexivity.
    - rewrite String.eqb_refl. apply andb_false_r. }
  rewrite Hcond.
  cbn [backendPromise memory.CreateBackend Backend.CreateOrUpdateModelVersion
       backendState backendCalls inStream outStream closed].
  unfold memory.CreateOrUpdateModelVersion. rewrite Hmodel.
  cbn [VersionArgs.VersionNumber]. rewrite Z.eqb_refl.
  unfold memory.putVersion.
  do 3 eexists. split; [reflexivity |].
  cbn [backendPromise backendState backendCalls inStream outStream closed
       memory.models memory.versions].
  split; [reflexivity |]. split; [reflexivity |]. split; [reflexivity |].
  split; [reflexivity |].
  split; [rewrite lookup_insert_eq; simpl; f_equal; lia |].
  split; [rewrite lookup_insert_eq; reflexivity |].
  intros n Hn. apply lookup_insert_ne. congruence.
Qed.

End UploadToMemory.

(** ** The upload scenarios of the specification, run on the in-memory store *)

Section UploadExamples.

Import backend grpcapi grpcservers.

Lemma CreateVersion_rejected_without_backend_call_witness :
  exists msg w',
    CreateVersion fixture.hash (fixture.server true) fixture.ctx
      (fixture.world memory.empty
         (upload.chunks (fixture.header 0 5 EmptyString) [[x01; x02]]))
    = Returned (Some (statusError codes.InvalidArgument msg)) w'
    /\ backendCalls w' = []
    /\ backendState w' = memory.empty
    /\ closed w' = None.
Proof.
  apply (CreateVersion_rejected_without_backend_call fixture.hash
           (fixture.server true) fixture.ctx
           (fixture.world memory.empty
              (upload.chunks (fixture.header 0 5 EmptyString) [[x01; x02]]))).
  apply upload.SizeMismatch. vm_compute. discriminate.
Defined.

Lemma CreateVersion_hands_over_computed_hash_witness :
  (fixture.hash [x01; x02] <> EmptyString
   /\ fixture.hash [x01; x02] <> fixture.hash (concat [[x01]; [x02]]) ->
   exists msg,
     CreateVersion fixture.hash (fixture.server true) fixture.ctx
       (fixture.world memory.empty
          (upload.chunks (fixture.header 0 2 (fixture.hash [x01; x02]))
             [[x01]; [x02]]))
     = Returned (Some (statusError codes.InvalidArgument msg))
         (fixture.world memory.empty []))
  /\ (fixture.hash [x01; x02] = EmptyString
      \/ fixture.hash [x01; x02] = fixture.hash (concat [[x01]; [x02]]) ->
      exists r w' versionArgs,
        CreateVersion fixture.hash (fixture.server true) fixture.ctx
          (fixture.world memory.empty
             (upload.chunks (fixture.header 0 2 (fixture.hash [x01; x02]))
                [[x01]; [x02]]))
        = Returned r w'
        /\ backendCalls w' = [] ++ [CallCreateOrUpdateModelVersion "m1" versionArgs]
        /\ VersionArgs.Data versionArgs = concat [[x01]; [x02]]
        /\ VersionArgs.DataHash versionArgs = fixture.hash (concat [[x01]; [x02]])
        /\ forall stored st',
             memory.CreateOrUpdateModelVersion true "m1" versionArgs memory.empty
             = (inl stored, st') ->
             r = None /\ backendState w' = st'
             /\ closed w'
                = Some (CreateVersionReply.Build (createPbModelVersionInfo stored))).
Proof.
  apply (CreateVersion_hands_over_computed_hash fixture.hash (fixture.server true)
           fixture.ctx (memory.CreateBackend true) memory.empty [] [] None
           (ModelVersionInfo.Build "m1" 0 0 false (fixture.hash [x01; x02]) 2 ∅)
           [[x01]; [x02]]);
    [reflexivity | vm_compute; reflexivity].
Defined.

Lemma CreateVersion_assigns_next_number_witness :
  exists w' versionArgs reply,
    CreateVersion fixture.hash (fixture.server true) fixture.ctx
      (fixture.world (fixture.stored memory.empty 0 [x01; x02; x03])
         (upload.chunks (fixture.header 1 2 EmptyString) [[x09; x09]]))
    = Returned None w'
    /\ backendCalls w' = [] ++ [CallCreateOrUpdateModelVersion "m1" versionArgs]
    /\ VersionArgs.VersionNumber versionArgs = 0
    /\ closed w' = Some reply
    /\ ModelVersionInfo.VersionNumber (CreateVersionReply.VersionInfo reply)
       = GoInt.uint32 (1 + 1)
    /\ ModelInfo.LatestVersionNumber <$> memory.models (backendState w') !! "m1"
       = Some (1 + 1)
    /\ snd <$> memory.versions (backendState w') !! ("m1", 1 + 1)
       = Some (concat [[x09; x09]])
    /\ forall n,
         n <> 1 + 1 ->
         memory.versions (backendState w') !! ("m1", n)
         = memory.versions (fixture.stored memory.empty 0 [x01; x02; x03])
             !! ("m1", n).
Proof.
  apply (CreateVersion_assigns_next_number fixture.hash true 2 fixture.ctx
           (fixture.stored memory.empty 0 [x01; x02; x03]) [] [] None
           (ModelVersionInfo.Build "m1" 1 0 false EmptyString 2 ∅)
           [[x09; x09]] (backend.ModelInfo.Build "m1" 1 ∅));
    [vm_compute; reflexivity | vm_compute; reflexivity | left; reflexivity].
Defined.

(** C1, the claim as stated fails.  Model [m1] holds version 1 with bytes
    1, 2, 3.  An upload of other bytes whose header carries version number 1
    leaves version 1 with its bytes and its hash, creates version 2 and
    moves the latest version number from 1 to 2. *)
Lemma CreateVersion_resubmission_creates_a_version :
  ModelInfo.LatestVersionNumber
    <$> memory.models (fixture.stored memory.empty 0 [x01; x02; x03]) !! "m1"
  = Some 1
  /\ ModelInfo.LatestVersionNumber
       <$> memory.models
             (fixture.stored (fixture.stored memory.empty 0 [x01; x02; x03])
                1 [x09; x09]) !! "m1"
     = Some 2
  /\ (fun v => (VersionInfo.DataHash v.1, v.2))
       <$> memory.versions
             (fixture.stored (fixture.stored memory.empty 0 [x01; x02; x03])
                1 [x09; x09]) !! ("m1", 1)
     = Some (fixture.hash [x01; x02; x03], [x01; x02; x03])
  /\ snd <$> memory.versions
               (fixture.stored (fixture.stored memory.empty 0 [x01; x02; x03])
                  1 [x09; x09]) !! ("m1", 2)
     = Some [x09; x09].
Proof. vm_compute. repeat split. Qed.

(** C2, at the failing input.  The header declares one byte.  After a
    fragment of two bytes the handler asks for the next message: it reads
    the later fragment too and rejects at the end of the stream, with the
    message of a stream that ended early; and when the next [Recv] fails
    it returns that error, not the rejection. *)
Lemma CreateVersion_excess_found_at_end_of_stream :
  CreateVersion fixture.hash (fixture.server true) fixture.ctx
    (fixture.world memory.empty
       (upload.chunks (fixture.header 0 1 EmptyString) [[x01; x02]; [x03]]))
  = Returned
      (Some (statusError codes.InvalidArgument
         "stream ended while having not received the expected data, expected 1 bytes, received 3 bytes"))
      (fixture.world memory.empty [])
  /\ CreateVersion fixture.hash (fixture.server true) fixture.ctx
       (fixture.world memory.empty
          (upload.chunks (fixture.header 0 1 EmptyString) [[x01; x02]]
           ++ [inr (otherError "connection reset")]))
     = Returned (Some (otherError "connection reset"))
         (fixture.world memory.empty []).
Proof. split; vm_compute; reflexivity. Qed.

(** C3, at the failing input.  The store requires the model to exist and
    holds none.  [CreateVersion] answers the [UnknownModelError] of the
    backend with an internal error, while [DeleteModel] answers the same
    error with not found. *)
Lemma CreateVersion_unknown_model_is_internal :
  CreateVersion fixture.hash (fixture.server false) fixture.ctx
    (fixture.world memory.empty
       (upload.chunks (fixture.header 0 0 EmptyString) []))
  = Returned
      (Some (statusError codes.Internal
         ("unexpected error while creating a version for model "
          +:+ strconv.Quote "m1" +:+ ": "
          +:+ Error (UnknownModelError "m1"))))
      (mkWorld memory.empty
         [CallCreateOrUpdateModelVersion "m1"
            (VersionArgs.Build 0 1000 false (fixture.hash []) [] ∅)]
         [] [] None)
  /\ DeleteModel (fixture.server false) fixture.ctx
       (DeleteModelRequest.Build "m1") (fixture.world memory.empty [])
     = Returned (inr (statusError codes.NotFound (Error (UnknownModelError "m1"))))
         (mkWorld memory.empty [CallDeleteModel "m1"] [] [] None).
Proof. split; vm_compute; reflexivity. Qed.

End UploadExamples.

(** ** Pagination *)

Section Listing.

Import backend grpcapi grpcservers.
Context {St : Type}.

Lemma nextAfter_cons versionInfo versionInfos start :
  nextAfter versionInfos
    (GoInt.uint (VersionInfo.VersionNumber versionInfo + 1))
  = nextAfter (versionInfo :: versionInfos) start.
Proof.
  unfold nextAfter. rewrite last_cons.
  destruct (last versionInfos); reflexivity.
Qed.

Lemma scanVersionInfos_spec versionInfos pbVersionInfos start :
  scanVersionInfos versionInfos pbVersionInfos start
  = (pbVersionInfos ++ map createPbModelVersionInfo versionInfos,
     nextAfter versionInfos start).
Proof.
  revert pbVersionInfos start.
  induction versionInfos as [| v vs IH]; intros pbs start; simpl.
  - rewrite app_nil_r. reflexivity.
  - rewrite IH, <- app_assoc, (nextAfter_cons v vs start). reflexivity.
Qed.

Lemma retrieveVersionInfos_spec (b : Backend.t St) ModelId versionNumbers :
  forall pbVersionInfos start w r w',
    retrieveVersionInfos b ModelId versionNumbers pbVersionInfos start w
    = Returned (inl r) w' ->
    exists versionInfos,
      r = (pbVersionInfos ++ map createPbModelVersionInfo versionInfos,
           nextAfter versionInfos start).
Proof.
  induction versionNumbers as [| n ns IH]; intros pbs start w r w' Hrun.
  - exists []. simpl in Hrun. unfold ret in Hrun.
    injection Hrun as <- _. simpl. rewrite app_nil_r. reflexivity.
  - simpl in Hrun. unfold bind, invoke in Hrun.
    destruct (Backend.RetrieveModelVersionInfo b ModelId (GoInt.int n) _)
      as [[v | err] st'].
    + apply IH in Hrun as [vs ->]. exists (v :: vs).
      simpl. rewrite <- app_assoc, (nextAfter_cons v vs start). reflexivity.
    + destruct err; discriminate.
Qed.

Lemma uint64_uint x : GoInt.uint64 (GoInt.uint x) = GoInt.uint x.
Proof. unfold GoInt.uint, GoInt.uint64. apply Z.mod_mod. lia. Qed.

Lemma initialVersionNumberOf_uint VersionHandle n :
  initialVersionNumberOf VersionHandle = Some n -> GoInt.uint64 n = n.
Proof.
  unfold initialVersionNumberOf.
  destruct (VersionHandle =? EmptyString)%string.
  - intros [= <-]. reflexivity.
  - destruct (strconv.ParseUint VersionHandle); simpl; [| discriminate].
    intros [= <-]. apply uint64_uint.
Qed.

(** The reply of a successful [RetrieveVersionInfos] is made of the records
    the backend gave, and its cursor is the number after the last of them. *)
Lemma RetrieveVersionInfos_reply (s : ModelRegistryServer St) ctx req w reply w' :
  RetrieveVersionInfos s ctx req w = Returned (inl reply) w' ->
  exists start versionInfos,
    initialVersionNumberOf (RetrieveVersionInfosRequest.VersionHandle req)
    = Some start
    /\ RetrieveVersionInfosReply.VersionInfos reply
       = map createPbModelVersionInfo versionInfos
    /\ RetrieveVersionInfosReply.NextVersionHandle reply
       = strconv.FormatUint (GoInt.uint64 (nextAfter versionInfos start)).
Proof.
  unfold RetrieveVersionInfos, Await, bind, ret, invoke, panic.
  destruct (initialVersionNumberOf _) as [start |]; [| discriminate].
  destruct (backendPromise s) as [b |]; [| discriminate].
  destruct (slice.len _ =? 0).
  - destruct (Backend.ListModelVersionInfos b _ _ _ _) as [[vis | err] st'].
    + intros [= <- _]. exists start, vis. rewrite scanVersionInfos_spec.
      auto.
    + destruct err; discriminate.
  - destruct (slice.from _ _) as [sl |]; [| discriminate].
    destruct (if 0 <? _ then _ else _) as [sl' |]; [| discriminate].
    destruct (retrieveVersionInfos b _ _ _ _ _) as [[r | err] w1 | w1] eqn:Hrun;
      [| discriminate | discriminate].
    apply retrieveVersionInfos_spec in Hrun as [vis ->].
    intros [= <- _]. exists start, vis. auto.
Qed.

End Listing.

(** ** The listing scenarios, run on the in-memory store *)

Section ListingExamples.

Import backend grpcapi grpcservers.

(** C8, the claim as stated fails for an empty result.  Model [m1] holds
    version 1 only.  A sequential scan from cursor 7 succeeds, returns no
    version, and its cursor is 7: no version was returned, and 7 is not one
    more than the number of any version of the model. *)
Lemma RetrieveVersionInfos_empty_page_keeps_cursor :
  RetrieveVersionInfos (fixture.server true) fixture.ctx
    (RetrieveVersionInfosRequest.Build "m1" (slice.Build [] []) 0 "7")
    (fixture.world (fixture.stored memory.empty 0 [x01]) [])
  = Returned (inl (RetrieveVersionInfosReply.Build [] "7"))
      (mkWorld (fixture.stored memory.empty 0 [x01])
         [CallListModelVersionInfos "m1" 7 0] [] [] None)
  /\ ModelInfo.LatestVersionNumber
       <$> memory.models (fixture.stored memory.empty 0 [x01]) !! "m1"
     = Some 1.
Proof. split; vm_compute; reflexivity. Qed.

(** C10, at the failing inputs.  With the identifiers [a] and [b] and a
    count of 2, the first page returns both models and the cursor 2; the
    request for the next page, with that cursor and the same count, slices
    the empty remainder up to 2 and panics.  A cursor beyond the list
    panics too, for model identifiers and for version numbers alike.  No
    operation of the backend is invoked before the panic. *)
Lemma explicit_list_slicing_panics :
  (exists w,
     RetrieveModels (fixture.server true) fixture.ctx
       (RetrieveModelsRequest.Build (slice.Build ["a"; "b"] []) 2 EmptyString)
       (fixture.world fixture.twoModels [])
     = Returned
         (inl (RetrieveModelsReply.Build
                 [ModelInfo.Build "a" ∅; ModelInfo.Build "b" ∅] "2")) w)
  /\ RetrieveModels (fixture.server true) fixture.ctx
       (RetrieveModelsRequest.Build (slice.Build ["a"; "b"] []) 2 "2")
       (fixture.world fixture.twoModels [])
     = Panicked (fixture.world fixture.twoModels [])
  /\ RetrieveModels (fixture.server true) fixture.ctx
       (RetrieveModelsRequest.Build (slice.Build ["a"; "b"] []) 0 "5")
       (fixture.world fixture.twoModels [])
     = Panicked (fixture.world fixture.twoModels [])
  /\ RetrieveVersionInfos (fixture.server true) fixture.ctx
       (RetrieveVersionInfosRequest.Build "m1" (slice.Build [1; 2] []) 0 "5")
       (fixture.world (fixture.stored memory.empty 0 [x01]) [])
     = Panicked (fixture.world (fixture.stored memory.empty 0 [x01]) []).
Proof.
  split; [eexists; vm_compute; reflexivity |].
  repeat split; vm_compute; reflexivity.
Qed.

End ListingExamples.

(** ** Cursors are decimal strings: formatting and parsing *)

Section Cursors.

Ltac eval_digit :=
  match goal with
  | |- context [strconv.digit ?c] =>
      let v := eval vm_compute in (strconv.digit c) in
      change (strconv.digit c) with v; cbn iota
  end.

Lemma digits_acc (d : Decimal.uint) (p : positive) :
  strconv.digits (Z.pos p) (NilEmpty.string_of_uint d)
  = Some (Z.pos (Pos.of_uint_acc d p)).
Proof.
  revert p.
  induction d; intros p;
    cbn [NilEmpty.string_of_uint strconv.digits Pos.of_uint_acc];
    try reflexivity; eval_digit; rewrite <- IHd; f_equal; lia.
Qed.

Lemma digits_zero (d : Decimal.uint) :
  strconv.digits 0 (NilEmpty.string_of_uint d) = Some (Z.of_N (Pos.of_uint d)).
Proof.
  induction d;
    cbn [NilEmpty.string_of_uint strconv.digits Pos.of_uint Z.of_N];
    try reflexivity; eval_digit; try exact IHd;
    rewrite <- digits_acc; f_equal.
Qed.

Lemma string_of_uint_nonnil (d : Decimal.uint) :
  d <> Decimal.Nil ->
  NilZero.string_of_uint d = NilEmpty.string_of_uint d
  /\ exists c s, NilEmpty.string_of_uint d = String c s
                 /\ Nat.eqb (nat_of_ascii c) 43 = false
                 /\ Nat.eqb (nat_of_ascii c) 45 = false.
Proof.
  intros Hd. destruct d; [contradiction | ..];
    (split; [reflexivity | do 2 eexists; split; [reflexivity | split; reflexivity]]).
Qed.

Lemma to_uint_nonnil (n : N) : N.to_uint n <> Decimal.Nil.
Proof.
  destruct n; simpl; [discriminate | apply DecimalPos.Unsigned.to_uint_nonnil].
Qed.

(** A number that fits 64 bits, written by [FormatUint], is read back by
    [ParseUint]. *)
Lemma ParseUint_FormatUint (u : Z) :
  0 <= u < 2 ^ 64 -> strconv.ParseUint (strconv.FormatUint u) = Some u.
Proof.
  intros Hu. unfold strconv.ParseUint, strconv.FormatUint.
  destruct (string_of_uint_nonnil _ (to_uint_nonnil (Z.to_N u)))
    as (-> & c & s & Hs & _).
  rewrite Hs, <- Hs, digits_zero.
  change (Pos.of_uint (N.to_uint (Z.to_N u))) with (N.of_uint (N.to_uint (Z.to_N u))).
  rewrite DecimalN.Unsigned.of_to, Z2N.id by lia.
  destruct (Z.ltb_spec u (2 ^ 64)); [reflexivity | lia].
Qed.

(** A number of the range of [int64], written by [FormatInt], is read back
    by [ParseInt]. *)
Lemma ParseInt_FormatInt (i : Z) :
  - 2 ^ 63 <= i < 2 ^ 63 -> strconv.ParseInt (strconv.FormatInt i) = Some i.
Proof.
  intros Hi. unfold strconv.FormatInt.
  destruct i as [| p | p].
  - reflexivity.
  - cbn [Z.to_int NilZero.string_of_int].
    pose proof (ParseUint_FormatUint (Z.pos p)) as Hp.
    unfold strconv.FormatUint in Hp. cbn [Z.to_N N.to_uint] in Hp.
    destruct (string_of_uint_nonnil _ (DecimalPos.Unsigned.to_uint_nonnil p))
      as (Heq & c & s & Hs & H43 & H45).
    unfold strconv.ParseInt. rewrite Heq, Hs, H43, H45, <- Hs, <- Heq.
    rewrite Hp by lia.
    destruct (Z.ltb_spec (Z.pos p) (2 ^ 63)); [reflexivity | lia].
  - cbn [Z.to_int NilZero.string_of_int].
    pose proof (ParseUint_FormatUint (Z.pos p)) as Hp.
    unfold strconv.FormatUint in Hp. cbn [Z.to_N N.to_uint] in Hp.
    unfold strconv.ParseInt.
    change (Nat.eqb (nat_of_ascii "-") 43) with false.
    change (Nat.eqb (nat_of_ascii "-") 45) with true. cbn iota.
    rewrite Hp by lia.
    destruct (Z.leb_spec (Z.pos p) (2 ^ 63)); [reflexivity | lia].
Qed.

Lemma FormatInt_nonempty (i : Z) :
  (strconv.FormatInt i =? EmptyString)%string = false.
Proof.
  unfold strconv.FormatInt. destruct i as [| p | p]; try reflexivity.
  cbn [Z.to_int NilZero.string_of_int].
  destruct (string_of_uint_nonnil _ (DecimalPos.Unsigned.to_uint_nonnil p))
    as (-> & c & s & -> & _). reflexivity.
Qed.

Lemma FormatUint_nonempty (u : Z) :
  (strconv.FormatUint u =? EmptyString)%string = false.
Proof.
  unfold strconv.FormatUint.
  destruct (string_of_uint_nonnil _ (to_uint_nonnil (Z.to_N u)))
    as (-> & c & s & -> & _). reflexivity.
Qed.

(** A model cursor made by [FormatInt] decodes to the offset it was made
    from. *)
Lemma offsetOf_FormatInt (i : Z) :
  - 2 ^ 63 <= i < 2 ^ 63 ->
  grpcservers.offsetOf (strconv.FormatInt i) = Some i.
Proof.
  intros Hi. unfold grpcservers.offsetOf.
  rewrite FormatInt_nonempty, ParseInt_FormatInt by exact Hi.
  simpl. f_equal. apply int_small. exact Hi.
Qed.

(** A version cursor made by [FormatUint] decodes to the number it was made
    from. *)
Lemma initialVersionNumberOf_FormatUint (u : Z) :
  0 <= u < 2 ^ 64 ->
  grpcservers.initialVersionNumberOf (strconv.FormatUint u) = Some u.
Proof.
  intros Hu. unfold grpcservers.initialVersionNumberOf.
  rewrite FormatUint_nonempty, ParseUint_FormatUint by exact Hu.
  simpl. f_equal. apply uint64_small. exact Hu.
Qed.

End Cursors.

(** ** Model operations *)

Section ModelOperations.

Import backend grpcapi grpcservers.
Context {St : Type}.

Lemma slice_from_None {A} (s : slice.t A) low :
  slice.from s low = None <-> low < 0 \/ slice.len s < low.
Proof.
  unfold slice.from.
  destruct (Z.leb_spec 0 low), (Z.leb_spec low (slice.len s)); simpl;
    split; intros Hx; first [reflexivity | discriminate | lia].
Qed.

Lemma slice_from_Some {A} (s s' : slice.t A) low :
  slice.from s low = Some s' ->
  0 <= low <= slice.len s
  /\ slice.elems s' = drop (Z.to_nat low) (slice.elems s)
  /\ slice.rest s' = slice.rest s
  /\ slice.cap s' = slice.cap s - low.
Proof.
  unfold slice.from.
  destruct (Z.leb_spec 0 low), (Z.leb_spec low (slice.len s)); simpl;
    intros [= <-]. simpl.
  split; [lia |]. split; [reflexivity |]. split; [reflexivity |].
  unfold slice.cap, slice.len, GoInt.len in *. simpl.
  rewrite length_drop. lia.
Qed.

Lemma slice_upto_None {A} (s : slice.t A) high :
  slice.upto s high = None <-> high < 0 \/ slice.cap s < high.
Proof.
  unfold slice.upto.
  destruct (Z.leb_spec 0 high), (Z.leb_spec high (slice.cap s)); simpl;
    split; intros Hx; first [reflexivity | discriminate | lia].
Qed.

Lemma slice_upto_Some {A} (s s' : slice.t A) high :
  slice.upto s high = Some s' ->
  0 <= high <= slice.cap s
  /\ slice.elems s' = take (Z.to_nat high) (slice.elems s ++ slice.rest s)
  /\ slice.len s' = high.
Proof.
  unfold slice.upto.
  destruct (Z.leb_spec 0 high), (Z.leb_spec high (slice.cap s)); simpl;
    intros [= <-]. simpl.
  split; [lia |]. split; [reflexivity |].
  unfold slice.cap, slice.len, GoInt.len in *. simpl.
  rewrite length_take, length_app. lia.
Qed.

(** The loop over the requested identifiers never panics. *)
Lemma retrieveModelInfos_returns (b : Backend.t St) modelIDs :
  forall pbModelInfos w,
    exists r w', retrieveModelInfos b modelIDs pbModelInfos w = Returned r w'.
Proof.
  induction modelIDs as [| id ids IH]; intros pbs w; simpl.
  - eauto.
  - unfold bind, invoke.
    destruct (Backend.RetrieveModelInfo b id (backendState w)) as [[mi | err] st'].
    + apply IH.
    + destruct err; eauto.
Qed.

(** When the loop succeeds it has looked every identifier up, once and in
    order, and holds one record for each. *)
Lemma retrieveModelInfos_success (b : Backend.t St) modelIDs :
  forall pbModelInfos w r w',
    retrieveModelInfos b modelIDs pbModelInfos w = Returned (inl r) w' ->
    backendCalls w' = backendCalls w ++ map CallRetrieveModelInfo modelIDs
    /\ GoInt.len r = GoInt.len pbModelInfos + GoInt.len modelIDs
    /\ inStream w' = inStream w /\ outStream w' = outStream w
    /\ closed w' = closed w.
Proof.
  induction modelIDs as [| id ids IH]; intros pbs w r w' Hrun; simpl in Hrun.
  - injection Hrun as <- <-. rewrite app_nil_r. unfold GoInt.len. simpl.
    repeat split; lia.
  - unfold bind, invoke in Hrun.
    destruct (Backend.RetrieveModelInfo b id (backendState w)) as [[mi | err] st'].
    + apply IH in Hrun as (Hcalls & Hlen & Hin & Hout & Hcl). simpl in *.
      rewrite Hcalls, <- app_assoc, Hlen, len_app. unfold GoInt.len. simpl.
      repeat split; try assumption; lia.
    + destruct err; discriminate.
Qed.


(** X1.  [RetrieveModels] panics exactly when a backend is assigned, the
    handle decodes, identifiers are given, and the decoded offset is
    negative or beyond the list, or the count is positive and beyond the
    capacity of what remains after the offset. *)
Theorem RetrieveModels_panics_iff (s : ModelRegistryServer St) ctx req w :
  (exists w', RetrieveModels s ctx req w = Panicked w')
  <-> (exists offset b,
         offsetOf (RetrieveModelsRequest.ModelHandle req) = Some offset
         /\ backendPromise s = Some b
         /\ slice.len (RetrieveModelsRequest.ModelIds req) <> 0
         /\ (offset < 0
             \/ slice.len (RetrieveModelsRequest.ModelIds req) < offset
             \/ (0 < RetrieveModelsRequest.ModelsCount req
                 /\ slice.cap (RetrieveModelsRequest.ModelIds req) - offset
                    < RetrieveModelsRequest.ModelsCount req))).
Proof.
  unfold RetrieveModels, offsetOf, Await, bind, ret, invoke, panic.
  destruct (if (RetrieveModelsRequest.ModelHandle req =? EmptyString)%string
            then _ else _) as [offset |];
    [| split; [intros [w' H]; discriminate
              | intros (o & b & H & _); discriminate]].
  destruct (backendPromise s) as [b |];
    [| split; [intros [w' H]; discriminate
              | intros (o & b & _ & H & _); discriminate]].
  destruct (Z.eqb_spec (slice.len (RetrieveModelsRequest.ModelIds req)) 0)
    as [Hlen | Hlen].
  { split.
    - intros [w' H].
      destruct (Backend.ListModels b _ _ _) as [[l | e] st']; discriminate.
    - intros (o & b' & _ & _ & H & _). contradiction. }
  destruct (slice.from _ offset) as [sl |] eqn:Hfrom.
  - apply slice_from_Some in Hfrom as (Hoff & _ & _ & Hcap).
    destruct (Z.ltb_spec 0 (RetrieveModelsRequest.ModelsCount req)) as [Hc | Hc].
    + destruct (slice.upto sl _) as [sl' |] eqn:Hupto.
      * apply slice_upto_Some in Hupto as (Hcount & _).
        split.
        -- intros [w' H].
           destruct (retrieveModelInfos_returns b (slice.elems sl') [] w)
             as (r & w1 & Hrun).
           destruct w as [st calls ins out cl]. simpl in *.
           rewrite Hrun in H. destruct r; discriminate.
        -- intros (o & b' & [= <-] & _ & _ & H). lia.
      * apply slice_upto_None in Hupto. split.
        -- intros _. exists offset, b. repeat split; try assumption. lia.
        -- intros _. eauto.
    + split.
      * intros [w' H].
        destruct (retrieveModelInfos_returns b (slice.elems sl) [] w)
          as (r & w1 & Hrun).
        destruct w as [st calls ins out cl]. simpl in *.
        rewrite Hrun in H. destruct r; discriminate.
      * intros (o & b' & [= <-] & _ & _ & H). lia.
  - apply slice_from_None in Hfrom. split.
    + intros _. exists offset, b. repeat split; try assumption. lia.
    + intros _. eauto.
Qed.


(** X2.  Listing all models: the reply holds the models the backend listed,
    in its order, and a cursor that, sent back as the handle, decodes to the
    request's offset plus the number of models returned. *)
Theorem RetrieveModels_list_all (s : ModelRegistryServer St) ctx req b w
    offset modelInfos st' :
  backendPromise s = Some b ->
  offsetOf (RetrieveModelsRequest.ModelHandle req) = Some offset ->
  slice.len (RetrieveModelsRequest.ModelIds req) = 0 ->
  Backend.ListModels b offset (GoInt.int (RetrieveModelsRequest.ModelsCount req))
    (backendState w) = (inl modelInfos, st') ->
  - 2 ^ 63 <= offset + GoInt.len modelInfos < 2 ^ 63 ->
  exists reply w',
    RetrieveModels s ctx req w = Returned (inl reply) w'
    /\ RetrieveModelsReply.ModelInfos reply = map pbModelInfoOf modelInfos
    /\ offsetOf (RetrieveModelsReply.NextModelHandle reply)
       = Some (offset + GoInt.len modelInfos)
    /\ backendCalls w'
       = backendCalls w
         ++ [CallListModels offset
               (GoInt.int (RetrieveModelsRequest.ModelsCount req))]
    /\ backendState w' = st'.
Proof.
  intros Hb Hoff Hlen Hlist Hrange.
  unfold RetrieveModels, Await, bind, ret, invoke.
  unfold offsetOf in Hoff. rewrite Hoff, Hb, Hlen. simpl. rewrite Hlist.
  do 2 eexists. split; [reflexivity |]. simpl.
  split; [reflexivity |]. split; [| auto].
  assert (Hl : GoInt.len (map pbModelInfoOf modelInfos) = GoInt.len modelInfos)
    by (unfold GoInt.len; rewrite length_map; reflexivity).
  rewrite Hl. change (GoInt.int64 ?x) with (GoInt.int x).
  rewrite !int_small by (rewrite ?int_small; lia).
  apply offsetOf_FormatInt. lia.
Qed.

(** The identifiers [RetrieveModels] looks up: the list from the offset on,
    cut or extended into the backing array to a positive count. *)
Lemma RetrieveModels_explicit_run (s : ModelRegistryServer St) ctx req w r w' :
  slice.len (RetrieveModelsRequest.ModelIds req) <> 0 ->
  RetrieveModels s ctx req w = Returned r w' ->
  (exists msg, r = inr (statusError codes.InvalidArgument msg)
               /\ offsetOf (RetrieveModelsRequest.ModelHandle req) = None
               /\ w' = w)
  \/ (backendPromise s = None /\ r = inr (ctxErr ctx) /\ w' = w)
  \/ exists offset b,
       offsetOf (RetrieveModelsRequest.ModelHandle req) = Some offset
       /\ backendPromise s = Some b
       /\ 0 <= offset <= slice.len (RetrieveModelsRequest.ModelIds req)
       /\ match retrieveModelInfos b
                  (if 0 <? RetrieveModelsRequest.ModelsCount req
                   then take (Z.to_nat (RetrieveModelsRequest.ModelsCount req))
                          (drop (Z.to_nat offset)
                             (slice.elems (RetrieveModelsRequest.ModelIds req))
                           ++ slice.rest (RetrieveModelsRequest.ModelIds req))
                   else drop (Z.to_nat offset)
                          (slice.elems (RetrieveModelsRequest.ModelIds req)))
                  [] w with
          | Returned (inl pbModelInfos) w1 =>
              r = inl (modelsReply offset pbModelInfos) /\ w' = w1
          | Returned (inr err) w1 => r = inr err /\ w' = w1
          | Panicked _ => False
          end.
Proof.
  intros Hlen. unfold RetrieveModels, Await, bind, ret, invoke, panic.
  fold (offsetOf (RetrieveModelsRequest.ModelHandle req)).
  destruct (offsetOf _) as [offset |]; [| intros [= <- <-]; left; eauto].
  destruct (backendPromise s) as [b |]; [| intros [= <- <-]; right; left; auto].
  destruct (Z.eqb_spec (slice.len (RetrieveModelsRequest.ModelIds req)) 0);
    [contradiction |].
  destruct (slice.from _ offset) as [sl |] eqn:Hfrom; [| discriminate].
  apply slice_from_Some in Hfrom as (Hoff & Helems & Hrest & _).
  intros Hrun. right; right. exists offset, b.
  split; [reflexivity |]. split; [reflexivity |]. split; [exact Hoff |].
  destruct (0 <? RetrieveModelsRequest.ModelsCount req).
  - destruct (slice.upto sl _) as [sl' |] eqn:Hupto; [| discriminate].
    apply slice_upto_Some in Hupto as (_ & Helems' & _).
    rewrite <- Helems, <- Hrest, <- Helems'.
    destruct (retrieveModelInfos b (slice.elems sl') [] w) as [[l | e] w1 | w1];
      [injection Hrun as <- <- | injection Hrun as <- <- | discriminate]; auto.
  - rewrite <- Helems.
    destruct (retrieveModelInfos b (slice.elems sl) [] w) as [[l | e] w1 | w1];
      [injection Hrun as <- <- | injection Hrun as <- <- | discriminate]; auto.
Qed.


(** X3.  With identifiers given, a successful [RetrieveModels] has looked up
    exactly the identifiers from the decoded offset on (up to a positive
    count, reaching into the backing array when the count is larger than
    what remains), each once and in order; it returns one record per
    identifier looked up, and a cursor that decodes to the offset plus their
    number. *)
Theorem RetrieveModels_explicit_success (s : ModelRegistryServer St) ctx req w
    reply w' :
  slice.len (RetrieveModelsRequest.ModelIds req) <> 0 ->
  slice.cap (RetrieveModelsRequest.ModelIds req) < 2 ^ 63 ->
  RetrieveModels s ctx req w = Returned (inl reply) w' ->
  exists offset looked,
    offsetOf (RetrieveModelsRequest.ModelHandle req) = Some offset
    /\ 0 <= offset <= slice.len (RetrieveModelsRequest.ModelIds req)
    /\ looked
       = (if 0 <? RetrieveModelsRequest.ModelsCount req
          then take (Z.to_nat (RetrieveModelsRequest.ModelsCount req))
                 (drop (Z.to_nat offset)
                    (slice.elems (RetrieveModelsRequest.ModelIds req))
                  ++ slice.rest (RetrieveModelsRequest.ModelIds req))
          else drop (Z.to_nat offset)
                 (slice.elems (RetrieveModelsRequest.ModelIds req)))
    /\ backendCalls w' = backendCalls w ++ map CallRetrieveModelInfo looked
    /\ GoInt.len (RetrieveModelsReply.ModelInfos reply) = GoInt.len looked
    /\ offsetOf (RetrieveModelsReply.NextModelHandle reply)
       = Some (offset + GoInt.len looked).
Proof.
  intros Hlen Hcap Hrun.
  destruct (RetrieveModels_explicit_run s ctx req w _ w' Hlen Hrun)
    as [(msg & H & _) | [(_ & H & _) | (offset & b & Hoff & _ & Hrange & Hloop)]];
    [discriminate | discriminate |].
  exists offset. eexists. split; [exact Hoff |]. split; [exact Hrange |].
  split; [reflexivity |].
  match type of Hloop with
  | match retrieveModelInfos b ?ids [] w with _ => _ end =>
      set (looked := ids) in *;
      assert (Hlooked : GoInt.len looked
                        <= slice.cap (RetrieveModelsRequest.ModelIds req) - offset);
      [| destruct (retrieveModelInfos b looked [] w) as [[l | e] w1 | w1] eqn:Hl;
         [| destruct Hloop; discriminate | contradiction]]
  end.
  - unfold looked, slice.cap, slice.len, GoInt.len in *.
    destruct (0 <? _); rewrite ?length_take, ?length_app, ?length_drop; lia.
  - destruct Hloop as [[= ->] ->].
    apply retrieveModelInfos_success in Hl as (Hcalls & Hl & _).
    unfold GoInt.len at 2 in Hl. simpl in Hl.
    split; [exact Hcalls |]. simpl. split; [lia |].
    change (GoInt.int64 ?x) with (GoInt.int x).
    pose proof (len_nonneg looked).
    rewrite Hl, !int_small by (rewrite ?int_small; lia).
    apply offsetOf_FormatInt. lia.
Qed.

End ModelOperations.

Section ModelCrud.

Import backend grpcapi grpcservers.
Context {St : Type}.

(** X5.  [CreateOrUpdateModel] panics exactly on a request without model
    info.  With model info and a backend assigned it invokes
    [CreateOrUpdateModel] of the backend once, with the identifier and user
    data of the request and latest version number 0; it answers success
    with the empty reply, and any error of the backend, an unknown model
    included, with an internal error that quotes the identifier and carries
    the error text. *)
Theorem CreateOrUpdateModel_outcome (s : ModelRegistryServer St) ctx b w :
  backendPromise s = Some b ->
  CreateOrUpdateModel s ctx (CreateOrUpdateModelRequest.Build None) w = Panicked w
  /\ forall reqModelInfo,
       exists r w',
         CreateOrUpdateModel s ctx
           (CreateOrUpdateModelRequest.Build (Some reqModelInfo)) w
         = Returned r w'
         /\ backendCalls w'
            = backendCalls w
              ++ [CallCreateOrUpdateModel
                    (backend.ModelInfo.Build (ModelInfo.ModelId reqModelInfo) 0
                       (ModelInfo.UserData reqModelInfo))]
         /\ match Backend.CreateOrUpdateModel b
                    (backend.ModelInfo.Build (ModelInfo.ModelId reqModelInfo) 0
                       (ModelInfo.UserData reqModelInfo)) (backendState w) with
            | (inl _, st') => r = inl tt /\ backendState w' = st'
            | (inr err, st') =>
                r = inr (statusError codes.Internal
                           ("unexpected error while creating model "
                            +:+ strconv.Quote (ModelInfo.ModelId reqModelInfo)
                            +:+ ": " +:+ Error err))
                /\ backendState w' = st'
            end.
Proof.
  intros Hb. split; [reflexivity |]. intros reqModelInfo.
  unfold CreateOrUpdateModel, Await, bind, ret, invoke. simpl. rewrite Hb.
  destruct (Backend.CreateOrUpdateModel b _ (backendState w)) as [[mi | err] st'];
    do 2 eexists; (split; [reflexivity |]); simpl; auto.
Qed.

(** X6.  [DeleteModel] invokes [DeleteModel] of the backend once for the
    identifier of the request; it answers success with the empty reply, an
    unknown model with not found and the text of the error, and any other
    error with an internal error that quotes the identifier and carries the
    error text. *)
Theorem DeleteModel_outcome (s : ModelRegistryServer St) ctx b req w :
  backendPromise s = Some b ->
  exists r w',
    DeleteModel s ctx req w = Returned r w'
    /\ backendCalls w'
       = backendCalls w ++ [CallDeleteModel (DeleteModelRequest.ModelId req)]
    /\ match Backend.DeleteModel b (DeleteModelRequest.ModelId req)
               (backendState w) with
       | (None, st') => r = inl tt /\ backendState w' = st'
       | (Some (UnknownModelError ModelID), st') =>
           r = inr (statusError codes.NotFound
                      ("no model " +:+ strconv.Quote ModelID +:+ " found"))
           /\ backendState w' = st'
       | (Some err, st') =>
           r = inr (statusError codes.Internal
                      ("unexpected error while deleting model "
                       +:+ strconv.Quote (DeleteModelRequest.ModelId req)
                       +:+ ": " +:+ Error err))
           /\ backendState w' = st'
       end.
Proof.
  intros Hb. unfold DeleteModel, Await, bind, ret, invoke. rewrite Hb.
  destruct (Backend.DeleteModel b _ (backendState w)) as [[err |] st'];
    [destruct err |]; do 2 eexists; (split; [reflexivity |]); simpl; auto.
Qed.

End ModelCrud.

Section VersionListing.

Import backend grpcapi grpcservers.
Context {St : Type}.

(** The loop over the requested version numbers never panics. *)
Lemma retrieveVersionInfos_returns (b : Backend.t St) ModelId versionNumbers :
  forall pbVersionInfos next w,
    exists r w',
      retrieveVersionInfos b ModelId versionNumbers pbVersionInfos next w
      = Returned r w'.
Proof.
  induction versionNumbers as [| n ns IH]; intros pbs next w; simpl.
  - eauto.
  - unfold bind, invoke.
    destruct (Backend.RetrieveModelVersionInfo b ModelId (GoInt.int n)
                (backendState w)) as [[vi | err] st'].
    + apply IH.
    + destruct err; eauto.
Qed.

(** X7.  [RetrieveVersionInfos] panics exactly when a backend is assigned,
    the handle decodes, version numbers are given, and the decoded cursor is
    beyond the list, or the count is positive and beyond the capacity of
    what remains after the cursor. *)
Theorem RetrieveVersionInfos_panics_iff (s : ModelRegistryServer St) ctx req w :
  (exists w', RetrieveVersionInfos s ctx req w = Panicked w')
  <-> (exists start b,
         initialVersionNumberOf (RetrieveVersionInfosRequest.VersionHandle req)
         = Some start
         /\ backendPromise s = Some b
         /\ slice.len (RetrieveVersionInfosRequest.VersionNumbers req) <> 0
         /\ (slice.len (RetrieveVersionInfosRequest.VersionNumbers req) < start
             \/ (0 < RetrieveVersionInfosRequest.VersionsCount req
                 /\ slice.cap (RetrieveVersionInfosRequest.VersionNumbers req)
                    - start
                    < RetrieveVersionInfosRequest.VersionsCount req))).
Proof.
  unfold RetrieveVersionInfos, Await, bind, ret, invoke, panic.
  destruct (initialVersionNumberOf _) as [start |] eqn:Hstart;
    [| split; [intros [w' H]; discriminate
              | intros (o & b & H & _); discriminate]].
  assert (Hnn : 0 <= start).
  { apply initialVersionNumberOf_uint in Hstart. unfold GoInt.uint64 in Hstart.
    pose proof (Z.mod_pos_bound start (2 ^ 64)). lia. }
  destruct (backendPromise s) as [b |];
    [| split; [intros [w' H]; discriminate
              | intros (o & b & _ & H & _); discriminate]].
  destruct (Z.eqb_spec (slice.len (RetrieveVersionInfosRequest.VersionNumbers req)) 0)
    as [Hlen | Hlen].
  { split.
    - intros [w' H].
      destruct (Backend.ListModelVersionInfos b _ _ _ _) as [[l | e] st'];
        [discriminate | destruct e; discriminate].
    - intros (o & b' & _ & _ & H & _). contradiction. }
  destruct (slice.from _ start) as [sl |] eqn:Hfrom.
  - apply slice_from_Some in Hfrom as (Hoff & _ & _ & Hcap).
    destruct (Z.ltb_spec 0 (RetrieveVersionInfosRequest.VersionsCount req))
      as [Hc | Hc].
    + destruct (slice.upto sl _) as [sl' |] eqn:Hupto.
      * apply slice_upto_Some in Hupto as (Hcount & _).
        split.
        -- intros [w' H].
           destruct (retrieveVersionInfos_returns b
                       (RetrieveVersionInfosRequest.ModelId req)
                       (slice.elems sl') [] start w) as (r & w1 & Hrun).
           destruct w as [st calls ins out cl]. simpl in *.
           rewrite Hrun in H. destruct r; discriminate.
        -- intros (o & b' & [= <-] & _ & _ & H). lia.
      * apply slice_upto_None in Hupto. split.
        -- intros _. exists start, b. repeat split; try assumption. lia.
        -- intros _. eauto.
    + split.
      * intros [w' H].
        destruct (retrieveVersionInfos_returns b
                    (RetrieveVersionInfosRequest.ModelId req)
                    (slice.elems sl) [] start w) as (r & w1 & Hrun).
        destruct w as [st calls ins out cl]. simpl in *.
        rewrite Hrun in H. destruct r; discriminate.
      * intros (o & b' & [= <-] & _ & _ & H). lia.
  - apply slice_from_None in Hfrom. split.
    + intros _. exists start, b. repeat split; try assumption. lia.
    + intros _. eauto.
Qed.

(** X8.  The cursor of a successful [RetrieveVersionInfos] is a handle the
    handler accepts: sent back, it decodes to a number; and after an empty
    page it decodes to the cursor of the request again, so asking again
    stays where it was. *)
Theorem RetrieveVersionInfos_cursor_decodes (s : ModelRegistryServer St) ctx req
    w reply w' :
  RetrieveVersionInfos s ctx req w = Returned (inl reply) w' ->
  exists start next,
    initialVersionNumberOf (RetrieveVersionInfosRequest.VersionHandle req)
    = Some start
    /\ initialVersionNumberOf (RetrieveVersionInfosReply.NextVersionHandle reply)
       = Some next
    /\ 0 <= next < 2 ^ 64
    /\ (RetrieveVersionInfosReply.VersionInfos reply = [] -> next = start).
Proof.
  intros Hrun.
  destruct (RetrieveVersionInfos_reply s ctx req w reply w' Hrun)
    as (start & vis & Hstart & Hinfos & Hnext).
  exists start, (GoInt.uint64 (nextAfter vis start)).
  assert (Hr : 0 <= GoInt.uint64 (nextAfter vis start) < 2 ^ 64)
    by (unfold GoInt.uint64; apply Z.mod_pos_bound; lia).
  split; [exact Hstart |].
  split; [rewrite Hnext; apply initialVersionNumberOf_FormatUint, Hr |].
  split; [exact Hr |].
  intros Hnil. rewrite Hinfos in Hnil. apply map_eq_nil in Hnil. subst vis.
  unfold nextAfter. simpl. eapply initialVersionNumberOf_uint, Hstart.
Qed.

End VersionListing.

Section DownloadRuns.

Import backend grpcapi grpcservers.
Context {St : Type}.

Lemma slice_bytes_Some data low high chunk :
  slice.bytes data low high = Some chunk ->
  0 <= low <= high /\ high <= GoInt.len data
  /\ chunk = take (Z.to_nat (high - low)) (drop (Z.to_nat low) data).
Proof.
  unfold slice.bytes.
  destruct (Z.leb_spec 0 low), (Z.leb_spec low high),
    (Z.leb_spec high (GoInt.len data)); simpl; intros [= <-].
  repeat split; lia.
Qed.

(** Whatever the chunk size, the chunks a run of the sending loop handed to
    [Send] are consecutive pieces of the payload from index [i] on; the run
    ends without error only when nothing of the payload is left, and with
    an error only when the last [Send] returned it, the earlier ones having
    succeeded. *)
Lemma sendChunks_prefix (s : ModelRegistryServer St) ctx modelData :
  forall fuel i w r w',
    0 <= i ->
    sendChunks fuel s ctx modelData (GoInt.len modelData) i w
    = Some (Returned r w') ->
    exists chunks tail,
      outStream w' = outStream w ++ map RetrieveVersionDataReplyChunk.Build chunks
      /\ drop (Z.to_nat i) modelData = concat chunks ++ tail
      /\ (r = None -> tail = [])
      /\ (forall k, (k < length chunks - 1)%nat ->
                    sendError ctx (length (outStream w) + k) = None)
      /\ (forall e, r = Some e ->
                    chunks <> []
                    /\ sendError ctx (length (outStream w) + length chunks - 1)
                       = Some e)
      /\ sameBut_outStream w w'.
Proof.
  induction fuel as [| fuel IH]; intros i w r w' Hi Hrun; simpl in Hrun;
    destruct (Z.ltb_spec i (GoInt.len modelData)) as [Hlt | Hge];
    try discriminate.
  1, 3: injection Hrun as <- <-; exists [], (drop (Z.to_nat i) modelData);
    simpl; rewrite app_nil_r;
    (split; [reflexivity |]); (split; [reflexivity |]);
    (split; [intros _; apply drop_ge; unfold GoInt.len in *; lia |]);
    (split; [intros k Hk; lia |]); (split; [discriminate |]);
    repeat split.
  destruct (slice.bytes modelData i _) as [chunk |] eqn:Hslice;
    [| discriminate].
  apply slice_bytes_Some in Hslice as (Hlow & Hhigh & Hchunk).
  set (bound := if GoInt.len modelData
                   <=? GoInt.int (i + sentModelVersionDataChunkSize s)
                then GoInt.len modelData
                else GoInt.int (i + sentModelVersionDataChunkSize s)) in *.
  unfold Send in Hrun.
  destruct (sendError ctx (length (outStream w))) as [e |] eqn:Hsend.
  - injection Hrun as <- <-.
    exists [chunk], (drop (Z.to_nat (bound - i)) (drop (Z.to_nat i) modelData)).
    simpl. rewrite app_nil_r.
    split; [reflexivity |].
    split; [rewrite Hchunk; symmetry; apply take_drop |].
    split; [discriminate |]. split; [intros k Hk; lia |].
    split; [| repeat split].
    intros e' [= <-]. split; [discriminate |].
    replace (length (outStream w) + 1 - 1)%nat with (length (outStream w)) by lia.
    exact Hsend.
  - set (i' := GoInt.int (i + sentModelVersionDataChunkSize s)) in *.
    assert (Hi' : 0 <= i')
      by (unfold bound in *; destruct (Z.leb_spec (GoInt.len modelData) i'); lia).
    apply IH in Hrun as (chunks & tail & Hout & Hcat & Hnone & Hbefore & Hlast
                         & Hsame); [| exact Hi'].
    simpl in Hout, Hbefore, Hlast, Hsame. rewrite length_app in Hbefore, Hlast.
    simpl in Hbefore, Hlast.
    exists (chunk :: chunks), tail. simpl.
    split; [rewrite Hout, <- app_assoc; reflexivity |].
    split.
    { unfold bound in *.
      destruct (Z.leb_spec (GoInt.len modelData) i') as [Hend | Hmore].
      - rewrite drop_ge in Hcat by (unfold GoInt.len in *; lia).
        rewrite <- app_assoc, <- Hcat, app_nil_r, Hchunk.
        symmetry. apply take_ge. rewrite length_drop. unfold GoInt.len in *. lia.
      - rewrite <- app_assoc, <- Hcat, Hchunk.
        replace (Z.to_nat i') with (Z.to_nat i + Z.to_nat (i' - i))%nat by lia.
        rewrite <- drop_drop. symmetry. apply take_drop. }
    split; [exact Hnone |].
    split.
    { intros k Hk. destruct k as [| k].
      - rewrite Nat.add_0_r. exact Hsend.
      - replace (length (outStream w) + S k)%nat
          with (length (outStream w) + 1 + k)%nat by lia.
        apply Hbefore. lia. }
    split; [| exact Hsame].
    intros e He. destruct (Hlast e He) as [Hne Herr].
    split; [discriminate |].
    replace (length (outStream w) + S (length chunks) - 1)%nat
      with (length (outStream w) + 1 + length chunks - 1)%nat by lia.
    exact Herr.
Qed.


(** X10.  Whatever the chunk size: when [RetrieveVersionData] returns after
    the backend gave the payload, the chunks it handed to [Send] are
    consecutive pieces of the payload from its start.  If it returns
    without error they make up the whole payload; if it returns an error,
    that error is what the last [Send] returned, every earlier [Send]
    succeeded, and no chunk was handed over after the failure. *)
Theorem RetrieveVersionData_sends_prefix fuel (s : ModelRegistryServer St)
    ctx req b w modelData st' r w' :
  backendPromise s = Some b ->
  Backend.RetrieveModelVersionData b (RetrieveVersionDataRequest.ModelId req)
    (GoInt.int (RetrieveVersionDataRequest.VersionNumber req)) (backendState w)
  = (inl modelData, st') ->
  RetrieveVersionData fuel s ctx req w = Some (Returned r w') ->
  exists chunks tail,
    outStream w' = outStream w ++ map RetrieveVersionDataReplyChunk.Build chunks
    /\ modelData = concat chunks ++ tail
    /\ (r = None -> tail = [])
    /\ (forall k, (k < length chunks - 1)%nat ->
                  sendError ctx (length (outStream w) + k) = None)
    /\ (forall e, r = Some e ->
                  chunks <> []
                  /\ sendError ctx (length (outStream w) + length chunks - 1)
                     = Some e).
Proof.
  intros Hb Hdata Hrun.
  destruct (Z.eq_dec (GoInt.len modelData) 0) as [Hzero | Hpos].
  - unfold RetrieveVersionData, fetchVersionData, Await, bind, ret, invoke, Send
      in Hrun.
    rewrite Hb, Hdata in Hrun. simpl in Hrun. rewrite Hzero in Hrun.
    simpl in Hrun. injection Hrun as <- <-.
    assert (modelData = []) as ->
      by (destruct modelData; [reflexivity | discriminate]).
    exists [[]], []. simpl.
    split; [reflexivity |]. split; [reflexivity |]. split; [reflexivity |].
    split; [intros k Hk; lia |].
    intros e He. split; [discriminate |].
    replace (length (outStream w) + 1 - 1)%nat with (length (outStream w)) by lia.
    exact He.
  - pose proof (len_nonneg modelData).
    destruct (fetchVersionData_payload s ctx req b w modelData st' Hb Hdata)
      as (w1 & Hfetch & Hout1); [lia |].
    unfold RetrieveVersionData in Hrun. rewrite Hfetch in Hrun.
    apply sendChunks_prefix in Hrun
      as (chunks & tail & Hout & Hcat & Hnone & Hbefore & Hlast & _); [| lia].
    rewrite Hout1 in *. simpl in Hcat.
    exists chunks, tail. auto.
Qed.

Lemma len_concat_full size (chunks : list (list byte)) :
  Forall (fun c => GoInt.len c = size) chunks ->
  GoInt.len (concat chunks) = size * Z.of_nat (length chunks).
Proof.
  induction 1 as [| c cs Hc _ IH]; simpl.
  - unfold GoInt.len. simpl. lia.
  - rewrite len_app, IH, Hc. lia.
Qed.

(** X11.  For a non-empty payload, a positive chunk size and a stream that
    accepts every chunk, the number of chunks [RetrieveVersionData] sends is
    the payload length divided by the chunk size, rounded up. *)
Theorem RetrieveVersionData_chunk_count fuel (s : ModelRegistryServer St)
    ctx req b w modelData st' :
  backendPromise s = Some b ->
  Backend.RetrieveModelVersionData b (RetrieveVersionDataRequest.ModelId req)
    (GoInt.int (RetrieveVersionDataRequest.VersionNumber req)) (backendState w)
  = (inl modelData, st') ->
  0 < GoInt.len modelData ->
  0 < sentModelVersionDataChunkSize s ->
  GoInt.len modelData + sentModelVersionDataChunkSize s <= GoInt.MaxInt ->
  (forall k, sendError ctx k = None) ->
  (length modelData <= fuel)%nat ->
  exists w',
    RetrieveVersionData fuel s ctx req w = Some (Returned None w')
    /\ Z.of_nat (length (outStream w')) - Z.of_nat (length (outStream w))
       = (GoInt.len modelData + sentModelVersionDataChunkSize s - 1)
         / sentModelVersionDataChunkSize s.
Proof.
  intros Hb Hdata Hlen Hsize Hmax Hsend Hfuel.
  destruct (fetchVersionData_payload s ctx req b w modelData st' Hb Hdata Hlen)
    as (w1 & Hfetch & Hout1).
  destruct (sendChunks_spec s ctx modelData Hsize Hsend Hmax fuel 0 w1)
    as (init & final & w' & Hrun & Hout & Hcat & Hall & Hfin & _).
  - lia.
  - unfold GoInt.len. lia.
  - exists w'. unfold RetrieveVersionData. rewrite Hfetch.
    split; [exact Hrun |].
    rewrite Hout, Hout1, length_app, length_map, length_app. simpl.
    simpl in Hcat. rewrite <- Hcat at 1.
    rewrite concat_app, len_app, (len_concat_full _ _ Hall). simpl.
    rewrite app_nil_r.
    set (size := sentModelVersionDataChunkSize s) in *.
    apply Z.div_unique with (r := GoInt.len final - 1); lia.
Qed.

(** X12.  A chunk size that is not positive never completes the download of
    a non-empty payload: with size zero the handler sends empty chunks for
    as long as the stream accepts them, whatever the fuel; with a negative
    size it panics in the first turn, before any chunk is sent. *)
Theorem RetrieveVersionData_nonpositive_chunk_size fuel ctx req b w
    (modelData : list byte) (st' : St) size :
  Backend.RetrieveModelVersionData b (RetrieveVersionDataRequest.ModelId req)
    (GoInt.int (RetrieveVersionDataRequest.VersionNumber req)) (backendState w)
  = (inl modelData, st') ->
  0 < GoInt.len modelData ->
  - 2 ^ 63 <= size <= 0 ->
  (size = 0 -> (forall k, sendError ctx k = None) ->
   RetrieveVersionData fuel (mkServer (Some b) size) ctx req w = None)
  /\ (size < 0 ->
      exists w',
        RetrieveVersionData (S fuel) (mkServer (Some b) size) ctx req w
        = Some (Panicked w')
        /\ outStream w' = outStream w).
Proof.
  intros Hdata Hlen Hsize.
  destruct (fetchVersionData_payload (mkServer (Some b) size) ctx req b w
              modelData st' eq_refl Hdata Hlen) as (w1 & Hfetch & Hout1).
  unfold RetrieveVersionData. rewrite Hfetch. split.
  - intros -> Hsend. apply sendChunks_zero_size; assumption.
  - intros Hneg. exists w1. split; [| exact Hout1].
    simpl. destruct (Z.ltb_spec 0 (GoInt.len modelData)); [| lia].
    rewrite int_small by lia.
    destruct (Z.leb_spec (GoInt.len modelData) (0 + size)); [lia |].
    unfold slice.bytes. simpl.
    destruct (Z.leb_spec 0 (0 + size)); [lia |]. reflexivity.
Qed.

End DownloadRuns.

Section Conversions.

Import backend grpcapi grpcservers.

Lemma timestamp_round_trip_uint (timestamp : Z) :
  0 <= timestamp < 2 ^ 64 ->
  nsTimestampFromTime (timeFromNsTimestamp timestamp) = timestamp.
Proof.
  intros H.
  unfold nsTimestampFromTime, timeFromNsTimestamp, GoInt.uint64, GoInt.int64.
  destruct (Z.lt_ge_cases timestamp (2 ^ 63)).
  - rewrite (Z.mod_small (timestamp + 2 ^ 63)) by lia.
    replace (timestamp + 2 ^ 63 - 2 ^ 63) with timestamp by lia.
    apply Z.mod_small. lia.
  - assert (Hm : (timestamp + 2 ^ 63) mod 2 ^ 64 = timestamp - 2 ^ 63)
      by (symmetry; apply Z.mod_unique with (q := 1); lia).
    rewrite Hm. symmetry. apply Z.mod_unique with (q := -1); lia.
Qed.

Lemma timestamp_round_trip_int (timestamp : Z) :
  - 2 ^ 63 <= timestamp < 2 ^ 63 ->
  timeFromNsTimestamp (nsTimestampFromTime timestamp) = timestamp.
Proof.
  intros H.
  unfold nsTimestampFromTime, timeFromNsTimestamp, GoInt.uint64, GoInt.int64.
  destruct (Z.lt_ge_cases timestamp 0).
  - assert (Hm : timestamp mod 2 ^ 64 = timestamp + 2 ^ 64)
      by (symmetry; apply Z.mod_unique with (q := -1); lia).
    rewrite Hm.
    assert (Hm' : (timestamp + 2 ^ 64 + 2 ^ 63) mod 2 ^ 64 = timestamp + 2 ^ 63)
      by (symmetry; apply Z.mod_unique with (q := 1); lia).
    rewrite Hm'. lia.
  - rewrite (Z.mod_small timestamp) by lia.
    rewrite (Z.mod_small (timestamp + 2 ^ 63)) by lia. lia.
Qed.

(** X13.  The two time stamp conversions are inverse of each other: a
    64-bit wire time stamp survives the passage through [time.Time], and a
    time within the range of [UnixNano] survives the passage through the
    wire. *)
Theorem timestamp_round_trip (timestamp : Z) :
  (0 <= timestamp < 2 ^ 64 ->
   nsTimestampFromTime (timeFromNsTimestamp timestamp) = timestamp)
  /\ (- 2 ^ 63 <= timestamp < 2 ^ 63 ->
      timeFromNsTimestamp (nsTimestampFromTime timestamp) = timestamp).
Proof.
  split; [apply timestamp_round_trip_uint | apply timestamp_round_trip_int].
Qed.

(** X14.  The wire record of a version whose numbers fit the wire holds
    them unchanged, its time stamp reads back as the creation time, and two
    such versions with the same wire record are the same version. *)
Theorem createPbModelVersionInfo_lossless (v : VersionInfo.t) :
  fitsWire v ->
  ModelVersionInfo.VersionNumber (createPbModelVersionInfo v)
  = VersionInfo.VersionNumber v
  /\ ModelVersionInfo.DataSize (createPbModelVersionInfo v)
     = VersionInfo.DataSize v
  /\ timeFromNsTimestamp
       (ModelVersionInfo.CreationTimestamp (createPbModelVersionInfo v))
     = VersionInfo.CreationTimestamp v
  /\ forall v', fitsWire v' ->
                createPbModelVersionInfo v' = createPbModelVersionInfo v ->
                v' = v.
Proof.
  intros (Hn & Hs & Ht).
  assert (Hfields : forall u, fitsWire u ->
            ModelVersionInfo.VersionNumber (createPbModelVersionInfo u)
            = VersionInfo.VersionNumber u
            /\ ModelVersionInfo.DataSize (createPbModelVersionInfo u)
               = VersionInfo.DataSize u
            /\ timeFromNsTimestamp
                 (ModelVersionInfo.CreationTimestamp (createPbModelVersionInfo u))
               = VersionInfo.CreationTimestamp u).
  { intros u (Hun & Hus & Hut). simpl.
    split; [apply uint32_small, Hun |].
    split; [apply uint64_small, Hus |].
    apply timestamp_round_trip_int. exact Hut. }
  destruct (Hfields v (conj Hn (conj Hs Ht))) as (H1 & H2 & H3).
  split; [exact H1 |]. split; [exact H2 |]. split; [exact H3 |].
  intros v' Hv' Heq.
  destruct (Hfields v' Hv') as (H1' & H2' & H3').
  rewrite Heq in H1', H2', H3'. rewrite H1 in H1'. rewrite H2 in H2'.
  rewrite H3 in H3'.
  destruct v as [id n t a h sz u], v' as [id' n' t' a' h' sz' u'].
  simpl in *. injection Heq as -> _ _ -> -> _ ->. congruence.
Qed.

End Conversions.

Section UploadRuns.

Import backend grpcapi grpcservers.
Context {St : Type}.
Variable hash : list byte -> string.

(** X15.  How the sender cut the payload into fragments does not matter:
    two streams with the same header whose fragments concatenate to the
    same bytes have the same outcome, down to the call made to the backend
    and the reply. *)
Theorem CreateVersion_fragmentation (s : ModelRegistryServer St) ctx st calls
    out cl header bodies bodies' :
  concat bodies = concat bodies' ->
  CreateVersion hash s ctx (mkWorld st calls (upload.chunks header bodies) out cl)
  = CreateVersion hash s ctx
      (mkWorld st calls (upload.chunks header bodies') out cl).
Proof.
  intros Heq.
  rewrite <- (app_nil_r (upload.chunks header bodies)),
    <- (app_nil_r (upload.chunks header bodies')), !CreateVersion_chunks, Heq.
  reflexivity.
Qed.

(** X16.  When [Recv] fails after the header and some fragments with an
    error other than end of stream, [CreateVersion] returns that error
    unchanged; it leaves what follows in the stream unread and does not
    reach the backend. *)
Theorem CreateVersion_recv_error (s : ModelRegistryServer St) ctx st calls
    out cl header bodies err rest :
  is_EOF err = false ->
  CreateVersion hash s ctx
    (mkWorld st calls (upload.chunks header bodies ++ inr err :: rest) out cl)
  = Returned (Some err) (mkWorld st calls rest out cl).
Proof.
  intros Herr. rewrite CreateVersion_chunks. cbn [receiveLoop].
  unfold receiveStep. rewrite Herr. reflexivity.
Qed.

Lemma commitVersion_returns (s : ModelRegistryServer St) ctx versionInfo
    modelData w :
  exists r w', commitVersion hash s ctx versionInfo modelData w = Returned r w'.
Proof.
  unfold commitVersion, Await, bind, ret, invoke, SendAndClose.
  destruct (_ && _)%bool; [eauto |].
  destruct (backendPromise s) as [b |]; [| eauto].
  destruct (Backend.CreateOrUpdateModelVersion b _ _ _) as [[vi | e] st'];
    eauto.
Qed.

(** The loop ends on the nil header only: reading the declared size with no
    version info in the header, at the end of the stream. *)
Lemma receiveLoop_NilDereference header stream :
  forall modelData rest,
    receiveLoop header modelData stream = (NilDereference, rest) ->
    header = None
    /\ exists bodies tail,
         stream = map (fun body => inl (CreateVersionRequestChunk.Body body))
                    bodies ++ tail
         /\ (tail = [] \/ exists later, tail = inr EOF :: later).
Proof.
  induction stream as [| r later IH]; intros modelData rest Hloop;
    cbn [receiveLoop] in Hloop.
  - destruct header as [vi |].
    + rewrite receiveStep_EOF in Hloop. destruct (_ =? _); discriminate.
    + split; [reflexivity |]. exists [], []. auto.
  - destruct (receiveStep header modelData r) as [d | d | e |] eqn:Hstep;
      try discriminate.
    + apply IH in Hloop as (Hh & bodies & tail & -> & Htail).
      split; [exact Hh |].
      unfold receiveStep in Hstep.
      destruct r as [chunk | err].
      * destruct chunk as [h | body |]; try discriminate.
        exists (body :: bodies), tail. auto.
      * destruct (is_EOF err); [| discriminate].
        destruct header as [vi |]; [| discriminate].
        destruct (_ && _)%bool; discriminate.
    + unfold receiveStep in Hstep.
      destruct r as [chunk | err].
      * destruct (CreateVersionRequestChunk.GetBody chunk); discriminate.
      * destruct err; try discriminate. simpl in Hstep.
        destruct header as [vi |].
        -- destruct (_ && _)%bool; discriminate.
        -- split; [reflexivity |]. exists [], (inr EOF :: later). eauto.
Qed.

Lemma receiveLoop_Break header stream :
  forall modelData received rest,
    receiveLoop header modelData stream = (Break received, rest) ->
    exists versionInfo, header = Some versionInfo.
Proof.
  induction stream as [| r later IH]; intros modelData received rest Hloop;
    cbn [receiveLoop] in Hloop.
  - destruct header as [vi |]; [eauto | discriminate].
  - destruct (receiveStep header modelData r) as [d | d | e |] eqn:Hstep;
      try discriminate.
    + eapply IH, Hloop.
    + destruct header as [vi |]; [eauto |].
      unfold receiveStep in Hstep.
      destruct r as [chunk | err].
      * destruct (CreateVersionRequestChunk.GetBody chunk); discriminate.
      * destruct (is_EOF err); discriminate.
Qed.

(** X17.  [CreateVersion] panics exactly when the header holds no version
    info and only payload fragments follow it up to the end of the stream:
    with version info in the header it never panics, whatever the stream
    holds. *)
Theorem CreateVersion_panics_iff (s : ModelRegistryServer St) ctx w :
  (exists w', CreateVersion hash s ctx w = Panicked w')
  <-> (exists bodies tail,
         inStream w = upload.chunks None bodies ++ tail
         /\ (tail = [] \/ exists later, tail = inr EOF :: later)).
Proof.
  destruct w as [st calls stream out cl]. cbn [inStream]. split.
  - intros [w' Hrun].
    unfold CreateVersion, bind, ret, panic, Recv, receiveData in Hrun.
    simpl in Hrun.
    destruct stream as [| [chunk | err] later]; simpl in Hrun;
      [discriminate | | destruct err; discriminate].
    destruct chunk as [header | body |]; simpl in Hrun; try discriminate.
    destruct (receiveLoop header [] later) as [exit rest] eqn:Hloop.
    simpl in Hrun.
    destruct exit as [d | d | e |]; try discriminate.
    + exfalso. eapply receiveLoop_exits. rewrite Hloop. reflexivity.
    + destruct (receiveLoop_Break _ _ _ _ _ Hloop) as [vi ->].
      destruct (commitVersion_returns s ctx vi d (mkWorld st calls rest out cl))
        as (r & w1 & Hc).
      rewrite Hc in Hrun. discriminate.
    + apply receiveLoop_NilDereference in Hloop
        as (-> & bodies & tail & -> & Htail).
      exists bodies, tail. auto.
  - intros (bodies & tail & -> & Htail).
    destruct Htail as [-> | [later ->]]; eexists;
      rewrite CreateVersion_chunks; cbn [receiveLoop]; simpl; reflexivity.
Qed.

(** X18.  A complete upload reaches the backend with the metadata of the
    header: the model identifier, the archived flag and the user data as
    they came, and as creation time the header's time stamp when it is
    positive, the reading of the clock when it is zero; a positive time
    stamp reads back from that creation time unchanged. *)
Theorem CreateVersion_passes_metadata (s : ModelRegistryServer St) ctx b st
    calls out cl versionInfo bodies :
  backendPromise s = Some b ->
  GoInt.uint64 (GoInt.len (concat bodies))
  = ModelVersionInfo.DataSize versionInfo ->
  ModelVersionInfo.DataHash versionInfo = EmptyString
  \/ ModelVersionInfo.DataHash versionInfo = hash (concat bodies) ->
  exists r w' creationTimestamp,
    CreateVersion hash s ctx
      (mkWorld st calls (upload.chunks (Some versionInfo) bodies) out cl)
    = Returned r w'
    /\ backendCalls w'
       = calls
         ++ [CallCreateOrUpdateModelVersion
               (ModelVersionInfo.ModelId versionInfo)
               (VersionArgs.Build 0 creationTimestamp
                  (ModelVersionInfo.Archived versionInfo)
                  (hash (concat bodies)) (concat bodies)
                  (ModelVersionInfo.UserData versionInfo))]
    /\ (ModelVersionInfo.CreationTimestamp versionInfo = 0 ->
        creationTimestamp = Now ctx)
    /\ (0 < ModelVersionInfo.CreationTimestamp versionInfo < 2 ^ 64 ->
        nsTimestampFromTime creationTimestamp
        = ModelVersionInfo.CreationTimestamp versionInfo).
Proof.
  intros Hb Hsize Hok.
  rewrite <- (app_nil_r (upload.chunks _ _)), CreateVersion_chunks.
  cbn [receiveLoop]. rewrite receiveStep_EOF, Hsize, Z.eqb_refl.
  unfold commitVersion, Await, bind, ret, invoke, SendAndClose. rewrite Hb.
  assert (Hcond : (negb (ModelVersionInfo.DataHash versionInfo =? EmptyString)%string
                   && negb (ModelVersionInfo.DataHash versionInfo
                            =? hash (concat bodies))%string)%bool = false).
  { destruct Hok as [-> | ->].
    - reflexivity.
    - rewrite String.eqb_refl. apply andb_false_r. }
  rewrite Hcond. simpl.
  match goal with
  | |- context [Backend.CreateOrUpdateModelVersion b ?id ?args st] =>
      destruct (Backend.CreateOrUpdateModelVersion b id args st)
        as [[stored | err] st1]; simpl
  end;
    do 3 eexists; (split; [reflexivity |]); (split; [reflexivity |]); simpl;
    (split;
     [ intros ->; reflexivity
     | intros Hts; destruct (Z.ltb_spec 0 (ModelVersionInfo.CreationTimestamp versionInfo));
       [apply timestamp_round_trip_uint; lia | lia] ]).
Qed.

End UploadRuns.

(** ** The properties above, at concrete requests on the in-memory store *)

Section Witnesses.

Import backend grpcapi grpcservers.

Lemma RetrieveModels_list_all_witness :
  exists reply w',
    RetrieveModels (fixture.server true) fixture.ctx
      (RetrieveModelsRequest.Build (slice.Build [] []) 0 EmptyString)
      (fixture.world fixture.twoModels [])
    = Returned (inl reply) w'
    /\ RetrieveModelsReply.ModelInfos reply
       = map pbModelInfoOf
           [backend.ModelInfo.Build "a" 0 ∅; backend.ModelInfo.Build "b" 0 ∅]
    /\ offsetOf (RetrieveModelsReply.NextModelHandle reply) = Some 2.
Proof.
  destruct (RetrieveModels_list_all (fixture.server true) fixture.ctx
              (RetrieveModelsRequest.Build (slice.Build [] []) 0 EmptyString)
              (memory.CreateBackend true) (fixture.world fixture.twoModels [])
              0 [backend.ModelInfo.Build "a" 0 ∅; backend.ModelInfo.Build "b" 0 ∅]
              fixture.twoModels)
    as (reply & w' & Hrun & Hinfos & Hcursor & _);
    [ reflexivity | reflexivity | reflexivity | vm_compute; reflexivity
    | vm_compute; split; [discriminate | reflexivity] | ].
  exists reply, w'. auto.
Defined.

Lemma RetrieveModels_explicit_success_witness :
  exists offset looked,
    offsetOf EmptyString = Some offset
    /\ 0 <= offset <= 2
    /\ looked = [ "a"; "b" ]
    /\ GoInt.len [ModelInfo.Build "a" ∅; ModelInfo.Build "b" ∅] = GoInt.len looked
    /\ offsetOf "2" = Some (offset + GoInt.len looked).
Proof.
  destruct (RetrieveModels_explicit_success (fixture.server true) fixture.ctx
              (RetrieveModelsRequest.Build (slice.Build ["a"; "b"] []) 0 EmptyString)
              (fixture.world fixture.twoModels [])
              (RetrieveModelsReply.Build
                 [ModelInfo.Build "a" ∅; ModelInfo.Build "b" ∅] "2")
              (mkWorld fixture.twoModels
                 [CallRetrieveModelInfo "a"; CallRetrieveModelInfo "b"] [] [] None))
    as (offset & looked & Hoff & Hrange & Hlooked & _ & Hlen & Hcursor);
    [ vm_compute; discriminate | vm_compute; reflexivity
    | vm_compute; reflexivity | ].
  assert (Hzero : offset = 0) by (vm_compute in Hoff; congruence).
  subst offset. exists 0, looked.
  split; [reflexivity |]. split; [exact Hrange |]. split; [exact Hlooked |].
  split; [exact Hlen | exact Hcursor].
Defined.

Lemma CreateOrUpdateModel_outcome_witness :
  CreateOrUpdateModel (fixture.server true) fixture.ctx
    (CreateOrUpdateModelRequest.Build None) (fixture.world memory.empty [])
  = Panicked (fixture.world memory.empty [])
  /\ exists r w',
       CreateOrUpdateModel (fixture.server true) fixture.ctx
         (CreateOrUpdateModelRequest.Build (Some (ModelInfo.Build "a" ∅)))
         (fixture.world memory.empty [])
       = Returned r w'
       /\ backendCalls w'
          = [] ++ [CallCreateOrUpdateModel (backend.ModelInfo.Build "a" 0 ∅)].
Proof.
  destruct (CreateOrUpdateModel_outcome (fixture.server true) fixture.ctx
              (memory.CreateBackend true) (fixture.world memory.empty [])
              eq_refl) as [Hnil Hsome].
  split; [exact Hnil |].
  destruct (Hsome (ModelInfo.Build "a" ∅)) as (r & w' & Hrun & Hcalls & _).
  exists r, w'. auto.
Defined.

Lemma DeleteModel_outcome_witness :
  exists r w',
    DeleteModel (fixture.server true) fixture.ctx (DeleteModelRequest.Build "zz")
      (fixture.world fixture.twoModels [])
    = Returned r w'
    /\ backendCalls w' = [] ++ [CallDeleteModel "zz"].
Proof.
  destruct (DeleteModel_outcome (fixture.server true) fixture.ctx
              (memory.CreateBackend true) (DeleteModelRequest.Build "zz")
              (fixture.world fixture.twoModels []) eq_refl)
    as (r & w' & Hrun & Hcalls & _).
  exists r, w'. auto.
Defined.

Lemma RetrieveVersionInfos_cursor_decodes_witness :
  exists start next,
    initialVersionNumberOf "7" = Some start
    /\ initialVersionNumberOf "7" = Some next
    /\ 0 <= next < 2 ^ 64
    /\ (@nil ModelVersionInfo.t = [] -> next = start).
Proof.
  apply (RetrieveVersionInfos_cursor_decodes (fixture.server true) fixture.ctx
           (RetrieveVersionInfosRequest.Build "m1" (slice.Build [] []) 0 "7")
           (fixture.world (fixture.stored memory.empty 0 [x01]) [])
           (RetrieveVersionInfosReply.Build [] "7")
           (mkWorld (fixture.stored memory.empty 0 [x01])
              [CallListModelVersionInfos "m1" 7 0] [] [] None)).
  vm_compute. reflexivity.
Defined.

Lemma RetrieveVersionData_sends_prefix_witness :
  exists chunks tail,
    [RetrieveVersionDataReplyChunk.Build [x01; x02];
     RetrieveVersionDataReplyChunk.Build [x03; x04]]
    = [] ++ map RetrieveVersionDataReplyChunk.Build chunks
    /\ [x01; x02; x03; x04; x05] = concat chunks ++ tail
    /\ (forall e, Some (otherError "broken pipe") = Some e ->
                  chunks <> []
                  /\ sendError fixture.ctxBroken (0 + length chunks - 1) = Some e).
Proof.
  destruct (RetrieveVersionData_sends_prefix 5 (fixture.server true)
              fixture.ctxBroken (RetrieveVersionDataRequest.Build "m1" 1)
              (memory.CreateBackend true)
              (fixture.world (fixture.stored memory.empty 0 [x01; x02; x03; x04; x05]) [])
              [x01; x02; x03; x04; x05]
              (fixture.stored memory.empty 0 [x01; x02; x03; x04; x05])
              (Some (otherError "broken pipe"))
              (mkWorld (fixture.stored memory.empty 0 [x01; x02; x03; x04; x05])
                 [CallRetrieveModelVersionData "m1" 1] []
                 [RetrieveVersionDataReplyChunk.Build [x01; x02];
                  RetrieveVersionDataReplyChunk.Build [x03; x04]] None))
    as (chunks & tail & Hout & Hcat & _ & _ & Hlast);
    [reflexivity | vm_compute; reflexivity | vm_compute; reflexivity |].
  exists chunks, tail.
  split; [exact Hout |]. split; [exact Hcat | exact Hlast].
Defined.

Lemma RetrieveVersionData_chunk_count_witness :
  exists w',
    RetrieveVersionData 5 (fixture.server true) fixture.ctx
      (RetrieveVersionDataRequest.Build "m1" 1)
      (fixture.world (fixture.stored memory.empty 0 [x01; x02; x03; x04; x05]) [])
    = Some (Returned None w')
    /\ Z.of_nat (length (outStream w')) - Z.of_nat 0 = (5 + 2 - 1) / 2.
Proof.
  apply (RetrieveVersionData_chunk_count 5 (fixture.server true) fixture.ctx
           (RetrieveVersionDataRequest.Build "m1" 1)
           (memory.CreateBackend true)
           (fixture.world (fixture.stored memory.empty 0 [x01; x02; x03; x04; x05]) [])
           [x01; x02; x03; x04; x05]
           (fixture.stored memory.empty 0 [x01; x02; x03; x04; x05]));
    [ reflexivity | vm_compute; reflexivity | vm_compute; reflexivity
    | reflexivity | vm_compute; discriminate | intros k; reflexivity
    | simpl; lia ].
Defined.

Lemma RetrieveVersionData_nonpositive_chunk_size_witness :
  (-1 = 0 -> (forall k, sendError fixture.ctx k = None) ->
   RetrieveVersionData 3 (mkServer (Some (memory.CreateBackend true)) (-1))
     fixture.ctx (RetrieveVersionDataRequest.Build "m1" 1)
     (fixture.world (fixture.stored memory.empty 0 [x01; x02]) [])
   = None)
  /\ (-1 < 0 ->
      exists w',
        RetrieveVersionData 4 (mkServer (Some (memory.CreateBackend true)) (-1))
          fixture.ctx (RetrieveVersionDataRequest.Build "m1" 1)
          (fixture.world (fixture.stored memory.empty 0 [x01; x02]) [])
        = Some (Panicked w')
        /\ outStream w' = []).
Proof.
  apply (RetrieveVersionData_nonpositive_chunk_size 3 fixture.ctx
           (RetrieveVersionDataRequest.Build "m1" 1) (memory.CreateBackend true)
           (fixture.world (fixture.stored memory.empty 0 [x01; x02]) [])
           [x01; x02] (fixture.stored memory.empty 0 [x01; x02]) (-1));
    [vm_compute; reflexivity | vm_compute; reflexivity
    | vm_compute; split; discriminate].
Defined.

Lemma createPbModelVersionInfo_lossless_witness :
  ModelVersionInfo.VersionNumber
    (createPbModelVersionInfo (VersionInfo.Build "m1" 3 (-5) true "h" 10 ∅))
  = 3
  /\ timeFromNsTimestamp
       (ModelVersionInfo.CreationTimestamp
          (createPbModelVersionInfo (VersionInfo.Build "m1" 3 (-5) true "h" 10 ∅)))
     = -5.
Proof.
  destruct (createPbModelVersionInfo_lossless
              (VersionInfo.Build "m1" 3 (-5) true "h" 10 ∅))
    as (Hn & _ & Ht & _);
    [unfold fitsWire; simpl; lia |].
  split; [exact Hn | exact Ht].
Defined.

Lemma CreateVersion_fragmentation_witness :
  CreateVersion fixture.hash (fixture.server true) fixture.ctx
    (fixture.world memory.empty
       (upload.chunks (fixture.header 0 3 EmptyString) [[x01; x02]; [x03]]))
  = CreateVersion fixture.hash (fixture.server true) fixture.ctx
      (fixture.world memory.empty
         (upload.chunks (fixture.header 0 3 EmptyString) [[x01]; []; [x02; x03]])).
Proof.
  apply (CreateVersion_fragmentation fixture.hash (fixture.server true)
           fixture.ctx memory.empty [] [] None (fixture.header 0 3 EmptyString)
           [[x01; x02]; [x03]] [[x01]; []; [x02; x03]]).
  reflexivity.
Defined.

Lemma CreateVersion_recv_error_witness :
  CreateVersion fixture.hash (fixture.server true) fixture.ctx
    (fixture.world memory.empty
       (upload.chunks (fixture.header 0 3 EmptyString) [[x01; x02]]
        ++ inr (otherError "connection reset")
           :: [inl (CreateVersionRequestChunk.Body [x03])]))
  = Returned (Some (otherError "connection reset"))
      (fixture.world memory.empty [inl (CreateVersionRequestChunk.Body [x03])]).
Proof.
  apply (CreateVersion_recv_error fixture.hash (fixture.server true) fixture.ctx
           memory.empty [] [] None (fixture.header 0 3 EmptyString) [[x01; x02]]
           (otherError "connection reset")
           [inl (CreateVersionRequestChunk.Body [x03])]).
  reflexivity.
Defined.

Lemma CreateVersion_passes_metadata_witness :
  exists r w' creationTimestamp,
    CreateVersion fixture.hash (fixture.server true) fixture.ctx
      (fixture.world memory.empty
         (upload.chunks
            (Some (ModelVersionInfo.Build "m1" 0 42 true EmptyString 2
                     {[ "k" := "v" ]}))
            [[x01]; [x02]]))
    = Returned r w'
    /\ backendCalls w'
       = [] ++ [CallCreateOrUpdateModelVersion "m1"
                  (VersionArgs.Build 0 creationTimestamp true
                     (fixture.hash (concat [[x01]; [x02]]))
                     (concat [[x01]; [x02]]) {[ "k" := "v" ]})]
    /\ (42 = 0 -> creationTimestamp = 1000)
    /\ (0 < 42 < 2 ^ 64 -> nsTimestampFromTime creationTimestamp = 42).
Proof.
  destruct (CreateVersion_passes_metadata fixture.hash (fixture.server true)
              fixture.ctx (memory.CreateBackend true) memory.empty [] [] None
              (ModelVersionInfo.Build "m1" 0 42 true EmptyString 2
                 {[ "k" := "v" ]})
              [[x01]; [x02]])
    as (r & w' & creationTimestamp & Hrun & Hcalls & Hzero & Hpos);
    [reflexivity | vm_compute; reflexivity | left; reflexivity |].
  exists r, w', creationTimestamp.
  split; [exact Hrun |]. split; [exact Hcalls |].
  split; [exact Hzero | exact Hpos].
Defined.

End Witnesses.

(** ** Listings tied to the answers of the backend *)

Section ListingRuns.

Import backend grpcapi grpcservers.
Context {St : Type}.

(** When the loop over the identifiers fails, the lookups before the failing
    one succeeded, the failing one is the first the backend refused, the
    identifiers after it were not looked up, and the error returned is the
    status made from the backend's error. *)
Lemma retrieveModelInfos_failure (b : Backend.t St) modelIDs :
  forall pbModelInfos w e w',
    retrieveModelInfos b modelIDs pbModelInfos w = Returned (inr e) w' ->
    exists looked modelID later found st err,
      modelIDs = looked ++ modelID :: later
      /\ lookUpModels b looked (backendState w) = Some (found, st)
      /\ Backend.RetrieveModelInfo b modelID st = (inr err, backendState w')
      /\ backendCalls w'
         = backendCalls w ++ map CallRetrieveModelInfo (looked ++ [modelID])
      /\ e = match err with
             | UnknownModelError _ => Errorf codes.NotFound (Error err)
             | _ => Errorf codes.Internal
                      ("unexpected error while retrieving models: " +:+ Error err)
             end.
Proof.
  induction modelIDs as [| id ids IH]; intros pbs w e w' Hrun; simpl in Hrun.
  - discriminate.
  - unfold bind, invoke in Hrun.
    destruct (Backend.RetrieveModelInfo b id (backendState w))
      as [[mi | err] st'] eqn:Hlookup.
    + apply IH in Hrun
        as (looked & bad & later & found & st & err & -> & Hfound & Hbad
            & Hcalls & He).
      exists (id :: looked), bad, later, (mi :: found), st, err.
      simpl in *. rewrite Hlookup, Hfound, Hcalls, <- app_assoc. auto.
    + exists [], id, ids, [], (backendState w), err. simpl.
      destruct err; injection Hrun as <- <-; simpl; rewrite Hlookup; auto.
Qed.

(** X4.  With model IDs given, a [RetrieveModels] that returns an error after
    reaching the backend has split the identifiers it ranges over into
    those looked up with success, the first one the backend refused, and
    the ones after it, which it did not look up: the calls made are the
    lookups up to the refused one, in order, and the error is not found
    with the text of the backend's error when that error is an unknown
    model, internal with its text otherwise. *)
Theorem RetrieveModels_explicit_failure (s : ModelRegistryServer St) ctx req b w
    offset e w' :
  slice.len (RetrieveModelsRequest.ModelIds req) <> 0 ->
  backendPromise s = Some b ->
  offsetOf (RetrieveModelsRequest.ModelHandle req) = Some offset ->
  RetrieveModels s ctx req w = Returned (inr e) w' ->
  exists looked modelID later found st err,
    requestedModelIDs req offset = looked ++ modelID :: later
    /\ lookUpModels b looked (backendState w) = Some (found, st)
    /\ Backend.RetrieveModelInfo b modelID st = (inr err, backendState w')
    /\ backendCalls w'
       = backendCalls w ++ map CallRetrieveModelInfo (looked ++ [modelID])
    /\ e = match err with
           | UnknownModelError _ => Errorf codes.NotFound (Error err)
           | _ => Errorf codes.Internal
                    ("unexpected error while retrieving models: " +:+ Error err)
           end.
Proof.
  intros Hlen Hb Ho Hrun.
  destruct (RetrieveModels_explicit_run s ctx req w _ w' Hlen Hrun)
    as [(msg & _ & H & _) | [(H & _) | (offset' & b' & Ho' & Hb' & _ & Hloop)]];
    [congruence | congruence |].
  assert (offset' = offset) as -> by congruence.
  assert (b' = b) as -> by congruence.
  fold (requestedModelIDs req offset) in Hloop.
  destruct (retrieveModelInfos b (requestedModelIDs req offset) [] w)
    as [[l | e'] w1 | w1] eqn:Hl;
    [destruct Hloop; discriminate | | contradiction].
  destruct Hloop as [[= ->] ->].
  apply retrieveModelInfos_failure in Hl
    as (looked & bad & later & found & st & err & Hsplit & Hfound & Hbad
        & Hcalls & He).
  exists looked, bad, later, found, st, err. auto.
Qed.

(** When the loop over the version numbers succeeds, the records it
    converted are the ones the backend gave to the lookups, in order. *)
Lemma retrieveVersionInfos_success (b : Backend.t St) ModelId versionNumbers :
  forall pbVersionInfos start w r w',
    retrieveVersionInfos b ModelId versionNumbers pbVersionInfos start w
    = Returned (inl r) w' ->
    exists versionInfos,
      lookUpVersions b ModelId versionNumbers (backendState w)
      = Some (versionInfos, backendState w')
      /\ r = (pbVersionInfos ++ map createPbModelVersionInfo versionInfos,
              nextAfter versionInfos start).
Proof.
  induction versionNumbers as [| n ns IH]; intros pbs start w r w' Hrun.
  - exists []. simpl in Hrun. unfold ret in Hrun.
    injection Hrun as <- <-. simpl. rewrite app_nil_r. auto.
  - simpl in Hrun. unfold bind, invoke in Hrun. simpl.
    destruct (Backend.RetrieveModelVersionInfo b ModelId (GoInt.int n) _)
      as [[v | err] st'].
    + apply IH in Hrun as (vs & Hvs & ->). exists (v :: vs).
      simpl in Hvs. rewrite Hvs. simpl.
      rewrite <- app_assoc, (nextAfter_cons v vs start). auto.
    + destruct err; discriminate.
Qed.

Lemma retrieveVersionInfos_failure (b : Backend.t St) ModelId versionNumbers :
  forall pbVersionInfos next w e w',
    retrieveVersionInfos b ModelId versionNumbers pbVersionInfos next w
    = Returned (inr e) w' ->
    exists looked versionNumber later found st err,
      versionNumbers = looked ++ versionNumber :: later
      /\ lookUpVersions b ModelId looked (backendState w) = Some (found, st)
      /\ Backend.RetrieveModelVersionInfo b ModelId (GoInt.int versionNumber) st
         = (inr err, backendState w')
      /\ backendCalls w'
         = backendCalls w
           ++ map (fun n => CallRetrieveModelVersionInfo ModelId (GoInt.int n))
                (looked ++ [versionNumber])
      /\ e = match err with
             | UnknownModelError _ | UnknownModelVersionError _ _ =>
                 Errorf codes.NotFound (Error err)
             | _ => Errorf codes.Internal
                      ("unexpected error while retrieving version "
                       +:+ strconv.dquote +:+ strconv.FormatUint versionNumber
                       +:+ strconv.dquote +:+ " for model "
                       +:+ strconv.Quote ModelId +:+ ": " +:+ Error err)
             end.
Proof.
  induction versionNumbers as [| n ns IH]; intros pbs next w e w' Hrun;
    simpl in Hrun.
  - discriminate.
  - unfold bind, invoke in Hrun.
    destruct (Backend.RetrieveModelVersionInfo b ModelId (GoInt.int n)
                (backendState w)) as [[vi | err] st'] eqn:Hlookup.
    + apply IH in Hrun
        as (looked & bad & later & found & st & err & -> & Hfound & Hbad
            & Hcalls & He).
      exists (n :: looked), bad, later, (vi :: found), st, err.
      simpl in *. rewrite Hlookup, Hfound, Hcalls, <- app_assoc. auto.
    + exists [], n, ns, [], (backendState w), err. simpl.
      destruct err; injection Hrun as <- <-; simpl; rewrite Hlookup; auto.
Qed.

(** What [RetrieveVersionInfos] does with version numbers given, once the
    handle decoded and a backend is assigned: the loop over the version
    numbers it ranges over. *)
Lemma RetrieveVersionInfos_explicit_run (s : ModelRegistryServer St) ctx req b w
    start r w' :
  slice.len (RetrieveVersionInfosRequest.VersionNumbers req) <> 0 ->
  backendPromise s = Some b ->
  initialVersionNumberOf (RetrieveVersionInfosRequest.VersionHandle req)
  = Some start ->
  RetrieveVersionInfos s ctx req w = Returned r w' ->
  match retrieveVersionInfos b (RetrieveVersionInfosRequest.ModelId req)
          (requestedVersionNumbers req start) [] start w with
  | Returned (inl found) w1 => r = inl (versionInfosReply found) /\ w' = w1
  | Returned (inr err) w1 => r = inr err /\ w' = w1
  | Panicked _ => False
  end.
Proof.
  intros Hlen Hb Hstart.
  unfold RetrieveVersionInfos, Await, bind, ret, invoke, panic.
  rewrite Hstart, Hb.
  destruct (Z.eqb_spec (slice.len (RetrieveVersionInfosRequest.VersionNumbers req)) 0);
    [contradiction |].
  destruct (slice.from _ start) as [sl |] eqn:Hfrom; [| discriminate].
  apply slice_from_Some in Hfrom as (_ & Helems & Hrest & _).
  unfold requestedVersionNumbers.
  destruct (0 <? RetrieveVersionInfosRequest.VersionsCount req).
  - destruct (slice.upto sl _) as [sl' |] eqn:Hupto; [| discriminate].
    apply slice_upto_Some in Hupto as (_ & Helems' & _).
    rewrite <- Helems, <- Hrest, <- Helems'.
    destruct (retrieveVersionInfos b _ (slice.elems sl') [] start w)
      as [[l | e] w1 | w1]; intros Hrun;
      [injection Hrun as <- <- | injection Hrun as <- <- | discriminate]; auto.
  - rewrite <- Helems.
    destruct (retrieveVersionInfos b _ (slice.elems sl) [] start w)
      as [[l | e] w1 | w1]; intros Hrun;
      [injection Hrun as <- <- | injection Hrun as <- <- | discriminate]; auto.
Qed.


(** C8, as amended.  After a successful [RetrieveVersionInfos] the reply
    holds the wire records of the versions the backend gave, in its order:
    those [ListModelVersionInfos] listed from the decoded cursor on in the
    sequential scan, those [RetrieveModelVersionInfo] gave for the version
    numbers ranged over otherwise.  When the reply lists no version its
    cursor is the decimal string of the cursor the request carried (0 for
    an empty handle).  When it lists some, its cursor is the decimal string
    of the number the backend gave for the last of them plus one (modulo
    2^64); when that number fits the 32 bits of the wire, 0 <= n < 2^32,
    it is the last version number of the reply, and the cursor is the last
    returned version number plus one. *)
Theorem RetrieveVersionInfos_cursor (s : ModelRegistryServer St) ctx req w reply w' :
  RetrieveVersionInfos s ctx req w = Returned (inl reply) w' ->
  exists start b versionInfos,
    initialVersionNumberOf (RetrieveVersionInfosRequest.VersionHandle req)
    = Some start
    /\ backendPromise s = Some b
    /\ (if slice.len (RetrieveVersionInfosRequest.VersionNumbers req) =? 0
        then Backend.ListModelVersionInfos b
               (RetrieveVersionInfosRequest.ModelId req) start
               (GoInt.int (RetrieveVersionInfosRequest.VersionsCount req))
               (backendState w)
             = (inl versionInfos, backendState w')
        else lookUpVersions b (RetrieveVersionInfosRequest.ModelId req)
               (requestedVersionNumbers req start) (backendState w)
             = Some (versionInfos, backendState w'))
    /\ RetrieveVersionInfosReply.VersionInfos reply
       = map createPbModelVersionInfo versionInfos
    /\ (RetrieveVersionInfosReply.VersionInfos reply = [] ->
        versionInfos = []
        /\ RetrieveVersionInfosReply.NextVersionHandle reply
           = strconv.FormatUint start)
    /\ (forall versionInfo,
          last versionInfos = Some versionInfo ->
          last (RetrieveVersionInfosReply.VersionInfos reply)
          = Some (createPbModelVersionInfo versionInfo)
          /\ RetrieveVersionInfosReply.NextVersionHandle reply
             = strconv.FormatUint
                 (GoInt.uint (VersionInfo.VersionNumber versionInfo + 1))
          /\ (0 <= VersionInfo.VersionNumber versionInfo < 2 ^ 32 ->
              ModelVersionInfo.VersionNumber
                (createPbModelVersionInfo versionInfo)
              = VersionInfo.VersionNumber versionInfo
              /\ RetrieveVersionInfosReply.NextVersionHandle reply
                 = strconv.FormatUint
                     (ModelVersionInfo.VersionNumber
                        (createPbModelVersionInfo versionInfo) + 1))).
Proof.
  intros Hrun.
  assert (Hrun0 := Hrun).
  unfold RetrieveVersionInfos, Await, bind, ret, invoke, panic in Hrun.
  destruct (initialVersionNumberOf _) as [start |] eqn:Hstart; [| discriminate].
  destruct (backendPromise s) as [b |] eqn:Hb; [| discriminate].
  assert (Hfacts : exists versionInfos,
             (if slice.len (RetrieveVersionInfosRequest.VersionNumbers req) =? 0
              then Backend.ListModelVersionInfos b
                     (RetrieveVersionInfosRequest.ModelId req) start
                     (GoInt.int (RetrieveVersionInfosRequest.VersionsCount req))
                     (backendState w)
                   = (inl versionInfos, backendState w')
              else lookUpVersions b (RetrieveVersionInfosRequest.ModelId req)
                     (requestedVersionNumbers req start) (backendState w)
                   = Some (versionInfos, backendState w'))
             /\ reply = versionInfosReply
                          (map createPbModelVersionInfo versionInfos,
                           nextAfter versionInfos start)).
  { destruct (Z.eqb_spec (slice.len (RetrieveVersionInfosRequest.VersionNumbers req)) 0)
      as [Hlen | Hlen].
    - destruct (Backend.ListModelVersionInfos b _ _ _ _) as [[vis | err] st'].
      + injection Hrun as <- <-. exists vis. simpl.
        rewrite scanVersionInfos_spec. auto.
      + destruct err; discriminate.
    - pose proof (RetrieveVersionInfos_explicit_run s ctx req b w start _ w'
                    Hlen Hb Hstart Hrun0) as Hloop.
      destruct (retrieveVersionInfos b _ (requestedVersionNumbers req start)
                  [] start w) as [[found | err] w1 | w1] eqn:Hl;
        [| destruct Hloop; discriminate | contradiction].
      destruct Hloop as [[= ->] ->].
      apply retrieveVersionInfos_success in Hl as (vis & Hvis & ->).
      exists vis. auto. }
  destruct Hfacts as (vis & Hback & ->).
  exists start, b, vis. split; [reflexivity |]. split; [reflexivity |].
  split; [exact Hback |]. simpl. split; [reflexivity |].
  split.
  - intros Hnil. apply map_eq_nil in Hnil. subst vis. split; [reflexivity |].
    unfold nextAfter. simpl.
    f_equal. eapply initialVersionNumberOf_uint, Hstart.
  - intros v Hlast.
    assert (Hcursor : strconv.FormatUint (GoInt.uint64 (nextAfter vis start))
                      = strconv.FormatUint
                          (GoInt.uint (VersionInfo.VersionNumber v + 1))).
    { unfold nextAfter. rewrite Hlast, uint64_uint. reflexivity. }
    split; [rewrite fmap_last, Hlast; reflexivity |].
    split; [exact Hcursor |].
    intros Hrange.
    assert (Hn : GoInt.uint32 (VersionInfo.VersionNumber v)
                 = VersionInfo.VersionNumber v) by (apply uint32_small; lia).
    split; [exact Hn |].
    rewrite Hcursor. f_equal. simpl. rewrite Hn.
    unfold GoInt.uint. apply uint64_small. lia.
Qed.

(** X9.  With version numbers given, a [RetrieveVersionInfos] that returns
    an error after reaching the backend has split the version numbers it
    ranges over into those looked up with success, the first one the
    backend refused, and the ones after it, which it did not look up: the
    calls made are the lookups up to the refused one, in order, and the
    error is not found with the text of the backend's error when that
    error is an unknown model or an unknown version, internal with its text
    otherwise. *)
Theorem RetrieveVersionInfos_explicit_failure (s : ModelRegistryServer St) ctx
    req b w start e w' :
  slice.len (RetrieveVersionInfosRequest.VersionNumbers req) <> 0 ->
  backendPromise s = Some b ->
  initialVersionNumberOf (RetrieveVersionInfosRequest.VersionHandle req)
  = Some start ->
  RetrieveVersionInfos s ctx req w = Returned (inr e) w' ->
  exists looked versionNumber later found st err,
    requestedVersionNumbers req start = looked ++ versionNumber :: later
    /\ lookUpVersions b (RetrieveVersionInfosRequest.ModelId req) looked
         (backendState w)
       = Some (found, st)
    /\ Backend.RetrieveModelVersionInfo b
         (RetrieveVersionInfosRequest.ModelId req) (GoInt.int versionNumber) st
       = (inr err, backendState w')
    /\ backendCalls w'
       = backendCalls w
         ++ map (fun n => CallRetrieveModelVersionInfo
                            (RetrieveVersionInfosRequest.ModelId req) (GoInt.int n))
              (looked ++ [versionNumber])
    /\ e = match err with
           | UnknownModelError _ | UnknownModelVersionError _ _ =>
               Errorf codes.NotFound (Error err)
           | _ => Errorf codes.Internal
                    ("unexpected error while retrieving version "
                     +:+ strconv.dquote +:+ strconv.FormatUint versionNumber
                     +:+ strconv.dquote +:+ " for model "
                     +:+ strconv.Quote (RetrieveVersionInfosRequest.ModelId req)
                     +:+ ": " +:+ Error err)
           end.
Proof.
  intros Hlen Hb Hstart Hrun.
  pose proof (RetrieveVersionInfos_explicit_run s ctx req b w start _ w'
                Hlen Hb Hstart Hrun) as Hloop.
  destruct (retrieveVersionInfos b _ (requestedVersionNumbers req start)
              [] start w) as [[found0 | e0] w1 | w1] eqn:Hl;
    [destruct Hloop; discriminate | | contradiction].
  destruct Hloop as [[= ->] ->].
  apply retrieveVersionInfos_failure in Hl
    as (looked & bad & later & found & st & err & Hsplit & Hfound & Hbad
        & Hcalls & He).
  exists looked, bad, later, found, st, err. auto.
Qed.

End ListingRuns.

Section ListingWitnesses.

Import backend grpcapi grpcservers.

Lemma RetrieveVersionInfos_cursor_witness :
  exists start versionInfos,
    initialVersionNumberOf EmptyString = Some start
    /\ memory.ListModelVersionInfos "m1" start (GoInt.int 0)
         (fixture.stored memory.empty 0 [x01])
       = (inl versionInfos, fixture.stored memory.empty 0 [x01])
    /\ [ModelVersionInfo.Build "m1" 1 1000 false (fixture.hash [x01]) 1 ∅]
       = map createPbModelVersionInfo versionInfos
    /\ (forall versionInfo,
          last versionInfos = Some versionInfo ->
          last [ModelVersionInfo.Build "m1" 1 1000 false (fixture.hash [x01]) 1 ∅]
          = Some (createPbModelVersionInfo versionInfo)
          /\ "2" = strconv.FormatUint
                     (GoInt.uint (VersionInfo.VersionNumber versionInfo + 1))
          /\ (0 <= VersionInfo.VersionNumber versionInfo < 2 ^ 32 ->
              ModelVersionInfo.VersionNumber
                (createPbModelVersionInfo versionInfo)
              = VersionInfo.VersionNumber versionInfo
              /\ "2" = strconv.FormatUint
                         (ModelVersionInfo.VersionNumber
                            (createPbModelVersionInfo versionInfo) + 1))).
Proof.
  destruct (RetrieveVersionInfos_cursor (fixture.server true) fixture.ctx
              (RetrieveVersionInfosRequest.Build "m1" (slice.Build [] []) 0
                 EmptyString)
              (fixture.world (fixture.stored memory.empty 0 [x01]) [])
              (RetrieveVersionInfosReply.Build
                 [ModelVersionInfo.Build "m1" 1 1000 false (fixture.hash [x01]) 1 ∅]
                 "2")
              (mkWorld (fixture.stored memory.empty 0 [x01])
                 [CallListModelVersionInfos "m1" 0 0] [] [] None))
    as (start & b & versionInfos & Hstart & Hb & Hback & Hinfos & _ & Hlast);
    [vm_compute; reflexivity |].
  injection Hb as <-.
  exists start, versionInfos.
  split; [exact Hstart |]. split; [exact Hback |]. split; [exact Hinfos |].
  exact Hlast.
Defined.

Lemma RetrieveModels_explicit_failure_witness :
  exists looked modelID later found st err,
    ["a"; "zz"; "b"] = looked ++ modelID :: later
    /\ lookUpModels (memory.CreateBackend true) looked fixture.twoModels
       = Some (found, st)
    /\ memory.RetrieveModelInfo modelID st = (inr err, fixture.twoModels)
    /\ [CallRetrieveModelInfo "a"; CallRetrieveModelInfo "zz"]
       = [] ++ map CallRetrieveModelInfo (looked ++ [modelID])
    /\ statusError codes.NotFound (Error (UnknownModelError "zz"))
       = match err with
         | UnknownModelError _ => Errorf codes.NotFound (Error err)
         | _ => Errorf codes.Internal
                  ("unexpected error while retrieving models: " +:+ Error err)
         end.
Proof.
  destruct (RetrieveModels_explicit_failure (fixture.server true) fixture.ctx
              (RetrieveModelsRequest.Build (slice.Build ["a"; "zz"; "b"] []) 0
                 EmptyString)
              (memory.CreateBackend true) (fixture.world fixture.twoModels [])
              0
              (statusError codes.NotFound (Error (UnknownModelError "zz")))
              (mkWorld fixture.twoModels
                 [CallRetrieveModelInfo "a"; CallRetrieveModelInfo "zz"] [] []
                 None))
    as (looked & modelID & later & found & st & err & Hsplit & Hfound & Hbad
        & Hcalls & He);
    [ vm_compute; discriminate | reflexivity | reflexivity
    | vm_compute; reflexivity | ].
  exists looked, modelID, later, found, st, err.
  split; [exact Hsplit |]. split; [exact Hfound |]. split; [exact Hbad |].
  split; [exact Hcalls | exact He].
Defined.

Lemma RetrieveVersionInfos_explicit_failure_witness :
  exists looked versionNumber later found st err,
    [1; 5; 1] = looked ++ versionNumber :: later
    /\ lookUpVersions (memory.CreateBackend true) "m1" looked
         (fixture.stored memory.empty 0 [x01])
       = Some (found, st)
    /\ memory.RetrieveModelVersionInfo "m1" (GoInt.int versionNumber) st
       = (inr err, fixture.stored memory.empty 0 [x01])
    /\ [CallRetrieveModelVersionInfo "m1" 1; CallRetrieveModelVersionInfo "m1" 5]
       = [] ++ map (fun n => CallRetrieveModelVersionInfo "m1" (GoInt.int n))
                 (looked ++ [versionNumber])
    /\ statusError codes.NotFound (Error (UnknownModelVersionError "m1" 5))
       = match err with
         | UnknownModelError _ | UnknownModelVersionError _ _ =>
             Errorf codes.NotFound (Error err)
         | _ => Errorf codes.Internal
                  ("unexpected error while retrieving version "
                   +:+ strconv.dquote +:+ strconv.FormatUint versionNumber
                   +:+ strconv.dquote +:+ " for model "
                   +:+ strconv.Quote "m1" +:+ ": " +:+ Error err)
         end.
Proof.
  destruct (RetrieveVersionInfos_explicit_failure (fixture.server true)
              fixture.ctx
              (RetrieveVersionInfosRequest.Build "m1" (slice.Build [1; 5; 1] [])
                 0 EmptyString)
              (memory.CreateBackend true)
              (fixture.world (fixture.stored memory.empty 0 [x01]) [])
              0
              (statusError codes.NotFound
                 (Error (UnknownModelVersionError "m1" 5)))
              (mkWorld (fixture.stored memory.empty 0 [x01])
                 [CallRetrieveModelVersionInfo "m1" 1;
                  CallRetrieveModelVersionInfo "m1" 5] [] [] None))
    as (looked & versionNumber & later & found & st & err & Hsplit & Hfound
        & Hbad & Hcalls & He);
    [ vm_compute; discriminate | reflexivity | reflexivity
    | vm_compute; reflexivity | ].
  exists looked, versionNumber, later, found, st, err.
  split; [exact Hsplit |]. split; [exact Hfound |]. split; [exact Hbad |].
  split; [exact Hcalls | exact He].
Defined.

End ListingWitnesses.
